(** * The eye-roll trigger core of [src/eye_roll_scroll.py]

    A shallow embedding of [EyeRollConfig] and of the pure part of
    [EyeRollDetector]: [_eye_roll_score], [process_landmarks] and
    [should_trigger].  Python's [float] is IEEE 754 binary64 and is modelled
    by the primitive floats of the Standard Library, whose operations are
    specified against [SpecFloat].  The camera, MediaPipe and the scroll call
    are collaborators: [run_camera] is modelled over what they return. *)

From Stdlib Require Import ZArith List Bool Lia Floats.
Import ListNotations.

(* The decimal literals below are the ones of the Python source; both
   languages read them as the nearest binary64 value. *)
Set Warnings "-inexact-float".

(** ** Python exceptions and results *)

Inductive py_exception : Set :=
| ValueError
| IndexError
| ZeroDivisionError.

Inductive py_result (A : Type) : Type :=
| Ok (a : A)
| Raise (e : py_exception).

Arguments Ok {A} a.
Arguments Raise {A} e.

Definition bind {A B : Type} (r : py_result A) (k : A -> py_result B) : py_result B :=
  match r with
  | Ok a => k a
  | Raise e => Raise e
  end.

Notation "x <- r ;; k" := (bind r (fun x => k))
  (at level 61, r at next level, right associativity).

(** ** Python floats *)

Module PyFloat.

(** [bool(x)] for a float: every value but the two zeros is true, NaN too. *)
Definition truthy (x : float) : bool := negb (x =? 0)%float.

(** [a >= b] *)
Definition ge (a b : float) : bool := (b <=? a)%float.

(** [a / b]: float division raises on a zero divisor. *)
Definition truediv (a b : float) : py_result float :=
  if (b =? 0)%float then Raise ZeroDivisionError else Ok (a / b)%float.

End PyFloat.

(** ** [collections.deque] with a [maxlen] *)

Module Deque.

Record deque : Set := { items : list float; maxlen : nat }.

(** [deque(maxlen=n)]: a negative bound is a [ValueError]. *)
Definition make (n : Z) : py_result deque :=
  if (n <? 0)%Z then Raise ValueError
  else Ok {| items := []; maxlen := Z.to_nat n |}.

Definition len (d : deque) : nat := length (items d).

(** [d.append(x)]: the item goes to the right end, and the left end is
    popped when the bound is exceeded. *)
Definition append (d : deque) (x : float) : deque :=
  let xs := items d ++ [x] in
  {| items := if (maxlen d <? length xs)%nat then tl xs else xs;
     maxlen := maxlen d |}.

Definition clear (d : deque) : deque :=
  {| items := []; maxlen := maxlen d |}.

End Deque.

(** ** Configuration *)

Record EyeRollConfig : Set := {
  roll_threshold : float;
  frames_required : Z;
  debounce_seconds : float;
  scroll_amount : Z
}.

(** [EyeRollConfig()] *)
Definition EyeRollConfig_default : EyeRollConfig :=
  {| roll_threshold := 0.65;
     frames_required := 3;
     debounce_seconds := 1.0;
     scroll_amount := 500 |}.

(** ** Landmarks *)

Module Landmark.
Record NormalizedLandmark : Set := { x : float; y : float }.
End Landmark.

Definition landmark_list := list Landmark.NormalizedLandmark.

(** [landmarks[i]] for a non-negative index. *)
Definition getitem (landmarks : landmark_list) (i : nat)
  : py_result Landmark.NormalizedLandmark :=
  match nth_error landmarks i with
  | Some p => Ok p
  | None => Raise IndexError
  end.

(** ** The detector *)

Definition LEFT_EYE_TOP : nat := 159.
Definition LEFT_EYE_BOTTOM : nat := 145.
Definition LEFT_IRIS_CENTER : nat := 468.

Definition RIGHT_EYE_TOP : nat := 386.
Definition RIGHT_EYE_BOTTOM : nat := 374.
Definition RIGHT_IRIS_CENTER : nat := 473.

Record EyeRollDetector : Set := {
  config : EyeRollConfig;
  _recent_scores : Deque.deque;
  _last_triggered : float
}.

(** [EyeRollDetector.__init__]: [config or EyeRollConfig()], a deque bounded
    by [frames_required], and [0.0] as the time of the last trigger. *)
Definition EyeRollDetector_init (cfg : option EyeRollConfig)
  : py_result EyeRollDetector :=
  let cfg := match cfg with Some c => c | None => EyeRollConfig_default end in
  q <- Deque.make (frames_required cfg) ;;
  Ok {| config := cfg; _recent_scores := q; _last_triggered := 0.0 |}.

Definition _eye_roll_score (landmarks : landmark_list)
    (eye_top eye_bottom iris_center : nat) : py_result float :=
  top <- getitem landmarks eye_top ;;
  bottom <- getitem landmarks eye_bottom ;;
  iris <- getitem landmarks iris_center ;;
  let top_y := Landmark.y top in
  let bottom_y := Landmark.y bottom in
  let iris_y := Landmark.y iris in
  let eye_height := (bottom_y - top_y)%float in
  if (eye_height <=? 0)%float then Ok 0.0%float
  else PyFloat.truediv (top_y - iris_y)%float eye_height.

Definition process_landmarks (landmarks : landmark_list) : py_result (float * float) :=
  left <- _eye_roll_score landmarks LEFT_EYE_TOP LEFT_EYE_BOTTOM LEFT_IRIS_CENTER ;;
  right <- _eye_roll_score landmarks RIGHT_EYE_TOP RIGHT_EYE_BOTTOM RIGHT_IRIS_CENTER ;;
  Ok (left, right).

(** [now or time.time()]: [clock] is what [time.time()] returns if this call
    reads it.  A timestamp that is absent or falsy is replaced by the clock. *)
Definition now_or_time (now : option float) (clock : float) : float :=
  match now with
  | Some t => if PyFloat.truthy t then t else clock
  | None => clock
  end.

Definition should_trigger (self : EyeRollDetector) (clock : float)
    (score : float) (now : option float) : bool * EyeRollDetector :=
  let now := now_or_time now clock in
  if (now - _last_triggered self <? debounce_seconds (config self))%float then
    (false, self)
  else
    let scores := Deque.append (_recent_scores self) score in
    let self1 := {| config := config self;
                    _recent_scores := scores;
                    _last_triggered := _last_triggered self |} in
    if (Z.of_nat (Deque.len scores) <? frames_required (config self))%Z then
      (false, self1)
    else
      let above_threshold :=
        forallb (fun s => PyFloat.ge s (roll_threshold (config self)))
                (Deque.items scores) in
      if negb above_threshold then (false, self1)
      else
        (true, {| config := config self;
                  _recent_scores := Deque.clear scores;
                  _last_triggered := now |}).

(** ** Driving the gate *)

(** One [should_trigger] call: the clock reading available to it, and its two
    arguments. *)
Record call : Set := { clock : float; score : float; now : option float }.

Definition step (self : EyeRollDetector) (c : call) : bool * EyeRollDetector :=
  should_trigger self (clock c) (score c) (now c).

(** A sequence of calls on one detector: the results in order and the final
    state. *)
Fixpoint run (self : EyeRollDetector) (calls : list call)
  : list bool * EyeRollDetector :=
  match calls with
  | [] => ([], self)
  | c :: rest =>
      let '(b, self1) := step self c in
      let '(bs, self2) := run self1 rest in
      (b :: bs, self2)
  end.

(** Calls whose timestamps the caller supplies: [(score, now)] pairs, each met
    by one clock reading. *)
Fixpoint supplied (clocks : list float) (pairs : list (float * float)) : list call :=
  match clocks, pairs with
  | c :: clocks, (s, t) :: pairs =>
      {| clock := c; score := s; now := Some t |} :: supplied clocks pairs
  | _, _ => []
  end.

(** The states a detector built from [cfg] can be in. *)
Inductive reachable (cfg : option EyeRollConfig) : EyeRollDetector -> Prop :=
| reach_init d :
    EyeRollDetector_init cfg = Ok d -> reachable cfg d
| reach_step d c :
    reachable cfg d -> reachable cfg (snd (step d c)).

(** What every reachable state satisfies: the deque is bounded by
    [frames_required] and within its bound. *)
Definition gate_inv (d : EyeRollDetector) : Prop :=
  (0 <= frames_required (config d))%Z /\
  Deque.maxlen (_recent_scores d) = Z.to_nat (frames_required (config d)) /\
  (Deque.len (_recent_scores d) <= Deque.maxlen (_recent_scores d))%nat.

(** The last [n] elements of a list. *)
Definition lastn {A : Type} (n : nat) (l : list A) : list A :=
  skipn (length l - n) l.

(** Whether a call gets past the debounce check of a gate that last fired at
    [last]. *)
Definition past_debounce (cfg : EyeRollConfig) (last : float) (c : call) : bool :=
  negb (now_or_time (now c) (clock c) - last <? debounce_seconds cfg)%float.

(** The scores of the calls that get past the debounce check. *)
Definition accumulated (cfg : EyeRollConfig) (last : float) (calls : list call)
  : list float :=
  map score (filter (past_debounce cfg last) calls).

(** ** The gate as the specification words it (section 4.2) *)

Module TriggerGate.

Record state : Set := { recent_scores : list float; last_triggered : float }.

(** "append [score] to the bounded FIFO (oldest dropped if over capacity)" *)
Definition fifo_append (capacity : nat) (buf : list float) (x : float) : list float :=
  let buf1 := buf ++ [x] in
  if (capacity <? length buf1)%nat then tl buf1 else buf1.

Definition should_trigger (cfg : EyeRollConfig) (st : state)
    (score now : float) : bool * state :=
  (* 1. debounce check, before accumulation *)
  if (now - last_triggered st <? debounce_seconds cfg)%float then (false, st)
  else
    (* 2. accumulate *)
    let buf := fifo_append (Z.to_nat (frames_required cfg)) (recent_scores st) score in
    let kept := {| recent_scores := buf; last_triggered := last_triggered st |} in
    (* 3. fill check *)
    if (Z.of_nat (length buf) <? frames_required cfg)%Z then (false, kept)
    (* 4. threshold check *)
    else if forallb (fun s => (roll_threshold cfg <=? s)%float) buf then
      (true, {| recent_scores := []; last_triggered := now |})
    (* 5. otherwise *)
    else (false, kept).

(** "practically [0,1] for genuine upward rolls": a score outside it. *)
Definition out_of_range (s : float) : bool := ((s <? 0) || (1 <? s))%float.

End TriggerGate.

(** The gate state a detector carries. *)
Definition gate_of (d : EyeRollDetector) : TriggerGate.state :=
  {| TriggerGate.recent_scores := Deque.items (_recent_scores d);
     TriggerGate.last_triggered := _last_triggered d |}.

(** Two landmark collections that hold the same landmarks at the indices
    [idx]. *)
Definition agree_at (idx : list nat) (lm1 lm2 : landmark_list) : Prop :=
  Forall (fun i => nth_error lm1 i = nth_error lm2 i) idx.

(** ** Binary64 values behind the primitive floats *)

Module SF.

(** A value that is not NaN and carries the sign [s]. *)
Definition signed (s : bool) (x : spec_float) : Prop :=
  match x with
  | S754_zero s' | S754_infinity s' | S754_finite s' _ _ => s' = s
  | S754_nan => False
  end.

Definition finite (x : spec_float) : Prop :=
  match x with
  | S754_zero _ | S754_finite _ _ _ => True
  | _ => False
  end.

(** The integer a finite value stands for at the exponent [ez]. *)
Definition aligned (s : bool) (m : positive) (e ez : Z) : Z :=
  cond_Zopp s (Z.pos (fst (shl_align m e ez))).

End SF.

(** ** Concrete inputs used below *)

Module Sample.

(** The configuration of the debounce test of the repository. *)
Definition cfg1 : EyeRollConfig :=
  {| roll_threshold := 0.5; frames_required := 1;
     debounce_seconds := 1.0; scroll_amount := 500 |}.

Definition cfg2 : EyeRollConfig :=
  {| roll_threshold := 0.5; frames_required := 2;
     debounce_seconds := 1.0; scroll_amount := 500 |}.

Definition cfg_nan_debounce : EyeRollConfig :=
  {| roll_threshold := 0.5; frames_required := 1;
     debounce_seconds := nan; scroll_amount := 500 |}.

Definition fresh (cfg : EyeRollConfig) : EyeRollDetector :=
  {| config := cfg;
     _recent_scores := {| Deque.items := [];
                          Deque.maxlen := Z.to_nat (frames_required cfg) |};
     _last_triggered := 0.0 |}.

(** Seconds since the epoch, as [time.time()] gives them. *)
Definition epoch_now : float := 1793750400.0.

Definition point (v : float) : Landmark.NormalizedLandmark :=
  {| Landmark.x := 0.5; Landmark.y := v |}.

(** Three landmarks: eye top, eye bottom, iris centre. *)
Definition eye (top_y bottom_y iris_y : float) : landmark_list :=
  [point top_y; point bottom_y; point iris_y].

(** A face of 478 landmarks, all at [y = 0.0] but the six of the eyes. *)
Definition face (lt lb li rt rb ri : float) : landmark_list :=
  map (fun i =>
         if (i =? LEFT_EYE_TOP)%nat then point lt
         else if (i =? LEFT_EYE_BOTTOM)%nat then point lb
         else if (i =? LEFT_IRIS_CENTER)%nat then point li
         else if (i =? RIGHT_EYE_TOP)%nat then point rt
         else if (i =? RIGHT_EYE_BOTTOM)%nat then point rb
         else if (i =? RIGHT_IRIS_CENTER)%nat then point ri
         else point 0.0)
      (seq 0 478).

End Sample.

(** ** The timestamp a call works with *)

(** The value of [now] after [now = now or time.time()]. *)
Definition effective (c : call) : float := now_or_time (now c) (clock c).

(** ** The camera loop *)

Module Camera.

(** [max(a, b)] on two floats: the first is kept unless the second is
    greater. *)
Definition max2 (a b : float) : float := if (a <? b)%float then b else a.

(** What one pass of the loop of [run_camera] gets from its collaborators:
    whether [cap.read()] succeeded, [results.multi_face_landmarks] (the
    landmark list of each face found; [None] is the empty list), the reading
    of [time.time()] inside [should_trigger], and the key that
    [cv2.waitKey(5)] returns. *)
Record frame : Set := {
  read_ok : bool;
  multi_face_landmarks : list landmark_list;
  time_now : float;
  key : Z
}.

(** [cv2.waitKey(5) & 0xFF == 27] *)
Definition esc (k : Z) : bool := (Z.land k 255 =? 27)%Z.

(** How the loop was left: the [RuntimeError] of a camera that does not
    open, one of the two [break]s, an exception out of [process_landmarks],
    or not yet, when the frames listed have all been handled. *)
Inductive exit : Set :=
| CannotOpen
| ReadFailed
| EscPressed
| Raised (e : py_exception)
| Pending.

Section Loop.

(** The world [on_trigger] acts on, and [pyautogui.scroll]. *)
Context {W : Type}.
Variable scroll : Z -> W -> W.

Record outcome : Type := {
  detector : EyeRollDetector;
  world : W;
  how : exit
}.

(** [on_trigger or (lambda: pyautogui.scroll(self.config.scroll_amount))] *)
Definition trigger_action (self : EyeRollDetector) (on_trigger : option (W -> W))
  : W -> W :=
  match on_trigger with
  | Some f => f
  | None => scroll (scroll_amount (config self))
  end.

(** The [while True] loop, one frame per pass. *)
Fixpoint loop (act : W -> W) (self : EyeRollDetector) (w : W)
    (frames : list frame) : outcome :=
  match frames with
  | [] => {| detector := self; world := w; how := Pending |}
  | f :: rest =>
      if negb (read_ok f) then
        {| detector := self; world := w; how := ReadFailed |}
      else
        match multi_face_landmarks f with
        | landmarks :: _ =>
            match process_landmarks landmarks with
            | Raise e => {| detector := self; world := w; how := Raised e |}
            | Ok (left_score, right_score) =>
                let score := max2 left_score right_score in
                let '(fire, self1) := should_trigger self (time_now f) score None in
                let w1 := if fire then act w else w in
                if esc (key f) then
                  {| detector := self1; world := w1; how := EscPressed |}
                else loop act self1 w1 rest
            end
        | [] =>
            if esc (key f) then
              {| detector := self; world := w; how := EscPressed |}
            else loop act self w rest
        end
  end.

Definition run_camera (self : EyeRollDetector) (on_trigger : option (W -> W))
    (opened : bool) (w : W) (frames : list frame) : outcome :=
  let act := trigger_action self on_trigger in
  if negb opened then {| detector := self; world := w; how := CannotOpen |}
  else loop act self w frames.

End Loop.

(** The [should_trigger] call a frame leads to, if any. *)
Definition frame_call (f : frame) : option call :=
  match multi_face_landmarks f with
  | landmarks :: _ =>
      match process_landmarks landmarks with
      | Ok (left_score, right_score) =>
          Some {| clock := time_now f; score := max2 left_score right_score;
                  now := None |}
      | Raise _ => None
      end
  | [] => None
  end.

Definition calls_of (frames : list frame) : list call :=
  flat_map (fun f => match frame_call f with Some c => [c] | None => [] end)
           frames.

(** A frame after which the loop goes on. *)
Definition passes (f : frame) : bool :=
  read_ok f && negb (esc (key f)) &&
  match multi_face_landmarks f with
  | landmarks :: _ =>
      match process_landmarks landmarks with Ok _ => true | Raise _ => false end
  | [] => true
  end.

(** A frame at which the loop ends whatever it shows. *)
Definition stops (f : frame) : bool := negb (read_ok f) || esc (key f).

End Camera.

(** ** The order of binary64 numbers *)

Module SFOrder.

(** A number's place in the order, as a triple compared from the left: the
    sign class, the exponent and the mantissa, the last two negated for
    negative numbers.  NaN has no place; it is given that of zero. *)
Definition rank (x : spec_float) : Z * Z * Z :=
  match x with
  | S754_infinity true => (-2, 0, 0)
  | S754_finite true m e => (-1, - e, Z.neg m)
  | S754_zero _ | S754_nan => (0, 0, 0)
  | S754_finite false m e => (1, e, Z.pos m)
  | S754_infinity false => (2, 0, 0)
  end%Z.

Definition lt3 (a b : Z * Z * Z) : Prop :=
  let '(a1, a2, a3) := a in
  let '(b1, b2, b3) := b in
  (a1 < b1 \/ (a1 = b1 /\ (a2 < b2 \/ (a2 = b2 /\ a3 < b3))))%Z.

Definition le3 (a b : Z * Z * Z) : Prop :=
  let '(a1, a2, a3) := a in
  let '(b1, b2, b3) := b in
  (a1 < b1 \/ (a1 = b1 /\ (a2 < b2 \/ (a2 = b2 /\ a3 <= b3))))%Z.

End SFOrder.

(** ** More concrete inputs *)

Module Demo.

(** A gate that fires on every call past the debounce. *)
Definition cfg0 : EyeRollConfig :=
  {| roll_threshold := 0.5; frames_required := 0;
     debounce_seconds := 1.0; scroll_amount := 500 |}.

Definition cfg_negative : EyeRollConfig :=
  {| roll_threshold := 0.5; frames_required := -1;
     debounce_seconds := 1.0; scroll_amount := 500 |}.

(** A call that passes no timestamp, at clock reading [t]. *)
Definition at_clock (t s : float) : call :=
  {| clock := t; score := s; now := None |}.

(** A call that passes the timestamp [t]. *)
Definition at_time (t s : float) : call :=
  {| clock := Sample.epoch_now; score := s; now := Some t |}.

(** A frame that shows one face, read at clock [t] with no key pressed. *)
Definition shows (t : float) (face : landmark_list) : Camera.frame :=
  {| Camera.read_ok := true; Camera.multi_face_landmarks := [face];
     Camera.time_now := t; Camera.key := -1 |}.

(** A frame that shows no face. *)
Definition blank (t : float) : Camera.frame :=
  {| Camera.read_ok := true; Camera.multi_face_landmarks := [];
     Camera.time_now := t; Camera.key := -1 |}.

(** A frame at which a key is pressed. *)
Definition pressed (k : Z) (t : float) : Camera.frame :=
  {| Camera.read_ok := true; Camera.multi_face_landmarks := [];
     Camera.time_now := t; Camera.key := k |}.

(** A face whose left iris rides above the eye top: its left score is
    [0.6666666666666666], above the default threshold. *)
Definition rolled : landmark_list := Sample.face 0.4 0.7 0.2 0.4 0.7 0.5.

(** A face that looks straight ahead. *)
Definition straight : landmark_list := Sample.face 0.4 0.7 0.5 0.4 0.7 0.5.

(** [pyautogui.scroll] on a world that logs the amounts scrolled. *)
Definition log_scroll (amount : Z) (w : list Z) : list Z := amount :: w.

End Demo.

(** * Proofs *)

(** ** Binary64 arithmetic *)

Module SFFacts.
Import SF.
Local Open Scope Z_scope.

(** Rounding a non-negative mantissa never yields NaN and keeps the sign it
    is given: shifting and rounding to nearest even stay non-negative. *)
Lemma shr_1_nonneg mrs : 0 <= shr_m mrs -> 0 <= shr_m (shr_1 mrs).
Proof.
  destruct mrs as [m r s]; cbn.
  destruct m as [|[p|p|]|[p|p|]]; cbn; lia.
Qed.

Lemma iter_pos_nonneg p : forall mrs,
  0 <= shr_m mrs -> 0 <= shr_m (iter_pos shr_1 p mrs).
Proof.
  induction p as [p IH|p IH|]; intros mrs H; cbn.
  - apply IH, IH, shr_1_nonneg, H.
  - apply IH, IH, H.
  - apply shr_1_nonneg, H.
Qed.

Lemma shr_fexp_nonneg m e l :
  0 <= m -> 0 <= shr_m (fst (shr_fexp prec emax m e l)).
Proof.
  intros H. unfold shr_fexp, shr.
  assert (H0 : 0 <= shr_m (shr_record_of_loc m l)).
  { destruct l as [|[| |]]; exact H. }
  destruct (fexp prec emax (Zdigits2 m + e) - e); cbn [fst]; auto.
  apply iter_pos_nonneg, H0.
Qed.

Lemma round_nearest_even_nonneg m l : 0 <= m -> 0 <= round_nearest_even m l.
Proof.
  intros H. destruct l as [|[| |]]; cbn; try lia.
  destruct (Z.even m); lia.
Qed.

Lemma binary_round_aux_signed s m e l :
  0 <= m -> signed s (binary_round_aux prec emax s m e l).
Proof.
  intros H. unfold binary_round_aux.
  pose proof (shr_fexp_nonneg m e l H) as H1.
  destruct (shr_fexp prec emax m e l) as [mrs1 e1]; cbn [fst] in H1.
  pose proof (shr_fexp_nonneg _ e1 loc_Exact
                (round_nearest_even_nonneg _ (loc_of_shr_record mrs1) H1)) as H2.
  destruct (shr_fexp prec emax _ e1 loc_Exact) as [mrs2 e2]; cbn [fst] in H2.
  destruct (shr_m mrs2) as [|p|p]; unfold signed; try reflexivity; try lia.
  destruct (e2 <=? emax - prec); reflexivity.
Qed.

Lemma binary_round_signed s m e : signed s (binary_round prec emax s m e).
Proof.
  unfold binary_round.
  destruct (shl_align m e _) as [mz ez].
  apply binary_round_aux_signed. lia.
Qed.

Lemma binary_normalize_neg m e sz :
  m < 0 -> signed true (binary_normalize prec emax m e sz).
Proof.
  destruct m; try lia. intros _. apply binary_round_signed.
Qed.

Lemma binary_normalize_not_nan m e sz :
  binary_normalize prec emax m e sz <> S754_nan.
Proof.
  destruct m as [|p|p]; cbn; try discriminate;
    [pose proof (binary_round_signed false p e) as H
    |pose proof (binary_round_signed true p e) as H];
    intros E; rewrite E in H; exact H.
Qed.

Lemma signed_true_leb_zero x : signed true x -> SFleb x (S754_zero false) = true.
Proof. destruct x as [s|s| |s m e]; cbn; intros H; try subst s; try reflexivity; contradiction. Qed.

(** Aligning a mantissa to a smaller exponent multiplies it by a power of
    two. *)
Lemma iter_xO m d : Z.pos (Pos.iter xO m d) = Z.pos m * 2 ^ Z.pos d.
Proof.
  induction d as [|d IH] using Pos.peano_ind.
  - cbn. lia.
  - rewrite Pos.iter_succ, Pos2Z.inj_succ, Z.pow_succ_r by lia.
    rewrite Pos2Z.inj_xO, IH. lia.
Qed.

Lemma shl_align_fst m e e' :
  e' <= e -> Z.pos (fst (shl_align m e e')) = Z.pos m * 2 ^ (e - e').
Proof.
  intros H. unfold shl_align.
  destruct (e' - e) as [|d|d] eqn:E; cbn [fst]; try lia.
  - replace (e - e') with 0 by lia. cbn. lia.
  - rewrite iter_xO. f_equal. f_equal. lia.
Qed.

Lemma digits2_pos_bounds m :
  2 ^ (Z.pos (digits2_pos m) - 1) <= Z.pos m < 2 ^ Z.pos (digits2_pos m).
Proof.
  induction m as [m IH|m IH|]; cbn [digits2_pos].
  - rewrite Pos2Z.inj_succ, Z.pow_succ_r by lia.
    replace (Z.succ (Z.pos (digits2_pos m)) - 1)
      with (Z.succ (Z.pos (digits2_pos m) - 1)) by lia.
    rewrite Z.pow_succ_r by lia. lia.
  - rewrite Pos2Z.inj_succ, Z.pow_succ_r by lia.
    replace (Z.succ (Z.pos (digits2_pos m)) - 1)
      with (Z.succ (Z.pos (digits2_pos m) - 1)) by lia.
    rewrite Z.pow_succ_r by lia. lia.
  - cbn. lia.
Qed.

(** What validity says of a finite binary64 value. *)
Lemma bounded_inv m e :
  bounded prec emax m e = true ->
  -1074 <= e /\ Z.pos m < 2 ^ 53 /\ (-1074 < e -> 2 ^ 52 <= Z.pos m).
Proof.
  unfold bounded, canonical_mantissa, fexp, emin, prec, emax.
  intros H. apply andb_prop in H. destruct H as [H _].
  apply Z.eqb_eq in H.
  pose proof (digits2_pos_bounds m) as [Hlo Hhi].
  set (d := Z.pos (digits2_pos m)) in *.
  assert (Hd : d <= 53) by lia.
  split; [lia|]. split.
  - apply Z.lt_le_trans with (1 := Hhi).
    apply Z.pow_le_mono_r; lia.
  - intros He. assert (d = 53) by lia.
    replace 52 with (d - 1) by lia. exact Hlo.
Qed.

Lemma scale_lt mx my k :
  Z.pos mx < 2 ^ 53 -> 2 ^ 52 <= Z.pos my -> 0 < k ->
  Z.pos mx < Z.pos my * 2 ^ k.
Proof.
  intros Hx Hy Hk.
  assert (2 ^ 1 <= 2 ^ k) by (apply Z.pow_le_mono_r; lia).
  change (2 ^ 53) with (2 ^ 52 * 2) in Hx. change (2 ^ 1) with 2 in H.
  nia.
Qed.

(** On valid finite values [SFcompare] orders the integers obtained by
    aligning both mantissas to the smaller exponent. *)
Lemma compare_lt_aligned sx mx ex sy my ey :
  bounded prec emax mx ex = true ->
  bounded prec emax my ey = true ->
  SFcompare (S754_finite sx mx ex) (S754_finite sy my ey) = Some Lt ->
  aligned sx mx ex (Z.min ex ey) < aligned sy my ey (Z.min ex ey).
Proof.
  intros Vx Vy H.
  apply bounded_inv in Vx. destruct Vx as (Hex & Hmx & Hnx).
  apply bounded_inv in Vy. destruct Vy as (Hey & Hmy & Hny).
  unfold aligned.
  rewrite !shl_align_fst by lia.
  cbn in H.
  destruct (Z.compare_spec ex ey) as [E|E|E].
  - subst ey. rewrite Z.min_id, Z.sub_diag. cbn [Z.pow]. rewrite !Z.mul_1_r.
    change PosDef.Pos.compare_cont with Pos.compare_cont in H.
    fold (Pos.compare mx my) in H.
    destruct sx, sy; cbn [cond_Zopp]; try discriminate; try lia.
    + destruct (Pos.compare_spec mx my); try discriminate; lia.
    + destruct (Pos.compare_spec mx my); try discriminate; lia.
  - rewrite Z.min_l by lia. rewrite Z.sub_diag. cbn [Z.pow]. rewrite Z.mul_1_r.
    pose proof (scale_lt mx my (ey - ex) Hmx (Hny ltac:(lia)) ltac:(lia)).
    destruct sx, sy; cbn [cond_Zopp]; try discriminate; try lia.
  - rewrite Z.min_r by lia. rewrite Z.sub_diag. cbn [Z.pow]. rewrite Z.mul_1_r.
    pose proof (scale_lt my mx (ex - ey) Hmy (Hnx ltac:(lia)) ltac:(lia)).
    destruct sx, sy; cbn [cond_Zopp]; try discriminate; try lia.
Qed.

Lemma compare_antisym (x y : spec_float) :
  SFcompare y x = option_map CompOpp (SFcompare x y).
Proof.
  destruct x as [sx|sx| |sx mx ex], y as [sy|sy| |sy my ey]; cbn;
    try reflexivity;
    try (destruct sx; reflexivity); try (destruct sy; reflexivity);
    try (destruct sx, sy; reflexivity).
  destruct sx, sy; cbn; try reflexivity;
    rewrite (Z.compare_antisym ex ey);
    destruct (ex ?= ey)%Z; cbn; try reflexivity.
  - rewrite CompOpp_involutive. f_equal.
    exact (Pos.compare_cont_antisym my mx Eq).
  - f_equal. symmetry. exact (Pos.compare_cont_antisym mx my Eq).
Qed.

Lemma compare_nan_r x : SFcompare x S754_nan = None.
Proof. destruct x; reflexivity. Qed.

Lemma sub_zero_r x : SF64sub x (S754_zero false) = x.
Proof. destruct x as [[|]|[|]| |s m e]; reflexivity. Qed.

(** Only infinities of the same sign subtract to NaN. *)
Lemma sub_finite_not_nan x y :
  finite x -> finite y -> SF64sub x y <> S754_nan.
Proof.
  destruct x as [sx|sx| |sx mx ex], y as [sy|sy| |sy my ey];
    cbn; try contradiction; intros _ _; try discriminate.
  - destruct sx, sy; discriminate.
  - apply binary_normalize_not_nan.
Qed.

(** [x < y] makes [x - y] negative or a negative zero, never NaN. *)
Lemma sub_of_lt x y :
  valid_binary x = true -> valid_binary y = true ->
  SFltb x y = true -> SFleb (SF64sub x y) (S754_zero false) = true.
Proof.
  intros Vx Vy H. unfold SFltb in H.
  destruct (SFcompare x y) as [[| |]|] eqn:C; try discriminate. clear H.
  destruct x as [sx|sx| |sx mx ex], y as [sy|sy| |sy my ey];
    try discriminate C;
    try solve [repeat match goal with s : bool |- _ => destruct s end;
               try discriminate C; reflexivity].
  apply signed_true_leb_zero.
  unfold SF64sub, SFsub. apply binary_normalize_neg.
  pose proof (compare_lt_aligned _ _ _ _ _ _ Vx Vy C) as L.
  unfold aligned in L. lia.
Qed.

Lemma compare_refl_finite s m e :
  SFcompare (S754_finite s m e) (S754_finite s m e) = Some Eq.
Proof.
  cbn. rewrite Z.compare_refl.
  change PosDef.Pos.compare_cont with Pos.compare_cont.
  fold (Pos.compare m m). rewrite Pos.compare_refl. destruct s; reflexivity.
Qed.

Lemma compare_eq_finite sx mx ex sy my ey :
  SFcompare (S754_finite sx mx ex) (S754_finite sy my ey) = Some Eq ->
  sx = sy /\ mx = my /\ ex = ey.
Proof.
  cbn. change PosDef.Pos.compare_cont with Pos.compare_cont.
  fold (Pos.compare mx my).
  destruct sx, sy; try discriminate;
    destruct (Z.compare_spec ex ey); try discriminate;
    destruct (Pos.compare_spec mx my); try discriminate; auto.
Qed.

(** [x == y] for a finite [x] makes [y - x] a zero. *)
Lemma sub_of_eq x y :
  finite x -> SFeqb x y = true ->
  SFleb (SF64sub y x) (S754_zero false) = true.
Proof.
  intros F H. unfold SFeqb in H.
  destruct (SFcompare x y) as [[| |]|] eqn:C; try discriminate. clear H.
  destruct x as [sx|sx| |sx mx ex], y as [sy|sy| |sy my ey];
    try contradiction; try discriminate C;
    try solve [repeat match goal with s : bool |- _ => destruct s end;
               try discriminate C; reflexivity].
  apply compare_eq_finite in C. destruct C as (-> & -> & ->).
  unfold SF64sub, SFsub. rewrite Z.sub_diag. reflexivity.
Qed.

End SFFacts.

(** Facts on primitive floats, through their specification. *)
Module FloatFacts.
Local Open Scope float_scope.

Lemma leb_nan_r t : (t <=? nan) = false.
Proof.
  rewrite leb_spec. change (Prim2SF nan) with S754_nan.
  unfold SFleb. now rewrite SFFacts.compare_nan_r.
Qed.

Lemma sub_zero t : t - 0 = t.
Proof. apply Prim2SF_inj. rewrite sub_spec. apply SFFacts.sub_zero_r. Qed.

Lemma is_nan_spec t : is_nan t = true <-> Prim2SF t = S754_nan.
Proof.
  unfold is_nan. rewrite eqb_spec. unfold SFeqb.
  destruct (Prim2SF t) as [s|s| |s m e].
  - split; discriminate.
  - destruct s; split; discriminate.
  - split; reflexivity.
  - rewrite SFFacts.compare_refl_finite. split; discriminate.
Qed.

Lemma is_finite_spec t : is_finite t = true -> SF.finite (Prim2SF t).
Proof.
  unfold is_finite. intros H. apply negb_true_iff, orb_false_iff in H.
  destruct H as [Hn Hi].
  unfold is_infinity in Hi. rewrite eqb_spec, abs_spec in Hi.
  change (Prim2SF infinity) with (S754_infinity false) in Hi.
  destruct (Prim2SF t) as [s|s| |s m e] eqn:E; cbn; auto.
  - discriminate Hi.
  - apply is_nan_spec in E. congruence.
Qed.

(** Comparisons of two numbers are total. *)
Lemma ltb_false_leb a b :
  is_nan a = false -> is_nan b = false -> (a <? b) = false -> (b <=? a) = true.
Proof.
  intros Ha Hb. rewrite ltb_spec, leb_spec. unfold SFltb, SFleb.
  rewrite (SFFacts.compare_antisym (Prim2SF a) (Prim2SF b)).
  destruct (SFcompare (Prim2SF a) (Prim2SF b)) as [[| |]|] eqn:C; cbn;
    try reflexivity; try discriminate.
  intros _.
  destruct (Prim2SF a) as [sa|sa| |sa ma ea] eqn:Ea;
    try (apply is_nan_spec in Ea; congruence);
    destruct (Prim2SF b) as [sb|sb| |sb mb eb] eqn:Eb;
    try (apply is_nan_spec in Eb; congruence);
    try discriminate C; destruct sa; discriminate C.
Qed.

Lemma leb_false_neq a b : (a <=? b) = false -> (a =? b) = false.
Proof.
  rewrite leb_spec, eqb_spec. unfold SFleb, SFeqb.
  destruct (SFcompare (Prim2SF a) (Prim2SF b)) as [[| |]|]; auto.
Qed.

Lemma ltb_true_neq a b : (a <? b) = true -> (b =? a) = false.
Proof.
  rewrite ltb_spec, eqb_spec. unfold SFltb, SFeqb.
  rewrite (SFFacts.compare_antisym (Prim2SF a) (Prim2SF b)).
  destruct (SFcompare (Prim2SF a) (Prim2SF b)) as [[| |]|]; cbn; auto; discriminate.
Qed.

Lemma sub_not_nan a b :
  is_finite a = true -> is_finite b = true -> is_nan (a - b) = false.
Proof.
  intros Ha Hb. apply is_finite_spec in Ha, Hb.
  destruct (is_nan (a - b)) eqn:E; auto.
  apply is_nan_spec in E. rewrite sub_spec in E.
  now apply SFFacts.sub_finite_not_nan in E.
Qed.

Lemma sub_of_ltb a b : (a <? b) = true -> (a - b <=? 0) = true.
Proof.
  rewrite ltb_spec, leb_spec, sub_spec.
  apply SFFacts.sub_of_lt; apply Prim2SF_valid.
Qed.

Lemma sub_of_eqb a b :
  is_finite a = true -> (a =? b) = true -> (b - a <=? 0) = true.
Proof.
  intros F. apply is_finite_spec in F.
  rewrite eqb_spec, leb_spec, sub_spec.
  now apply SFFacts.sub_of_eq.
Qed.

End FloatFacts.

(** ** Lists and the bounded deque *)

Section LastN.
Context {A : Type}.
Implicit Types (l : list A) (n : nat).

Lemma lastn_all n l : length l <= n -> lastn n l = l.
Proof.
  intros H. unfold lastn. replace (length l - n) with 0 by lia. reflexivity.
Qed.

Lemma length_lastn n l : length (lastn n l) = Nat.min n (length l).
Proof. unfold lastn. rewrite length_skipn. lia. Qed.

Lemma lastn_app n l1 l2 :
  length l2 <= n -> lastn n (l1 ++ l2) = lastn (n - length l2) l1 ++ l2.
Proof.
  intros H. unfold lastn. rewrite length_app, skipn_app.
  replace (length l1 + length l2 - n) with (length l1 - (n - length l2)) by lia.
  replace (length l1 - (n - length l2) - length l1) with 0 by lia.
  reflexivity.
Qed.

Lemma lastn_app_long n l1 l2 :
  n <= length l2 -> lastn n (l1 ++ l2) = lastn n l2.
Proof.
  intros H. unfold lastn. rewrite length_app, skipn_app.
  rewrite skipn_all2 by lia. cbn [app]. f_equal. lia.
Qed.

Lemma lastn_lastn n m l : m <= n -> lastn m (lastn n l) = lastn m l.
Proof.
  intros H. unfold lastn. rewrite length_skipn, skipn_skipn.
  f_equal. lia.
Qed.

(** Appending to the last [n] and keeping the last [n] forgets nothing that
    appending to the whole list would keep. *)
Lemma lastn_snoc n l a : lastn n (lastn n l ++ [a]) = lastn n (l ++ [a]).
Proof.
  destruct n as [|n].
  - unfold lastn. rewrite !Nat.sub_0_r, !skipn_all2 by lia. reflexivity.
  - rewrite !lastn_app by (cbn; lia). cbn [length].
    rewrite lastn_lastn by lia. reflexivity.
Qed.

Lemma lastn_tl l a :
  lastn (length l) (l ++ [a]) = tl (l ++ [a]).
Proof.
  unfold lastn. rewrite length_app. cbn [length].
  replace (length l + 1 - length l) with 1 by lia.
  destruct (l ++ [a]); reflexivity.
Qed.

End LastN.

Module DequeFacts.
Import Deque.

Lemma maxlen_append d a : maxlen (append d a) = maxlen d.
Proof. reflexivity. Qed.

(** A deque within its bound keeps the last [maxlen] of what was appended. *)
Lemma items_append d a :
  len d <= maxlen d ->
  items (append d a) = lastn (maxlen d) (items d ++ [a]).
Proof.
  unfold len, append. cbn [items]. intros H.
  rewrite length_app. cbn [length].
  destruct (Nat.ltb_spec (maxlen d) (length (items d) + 1)) as [L|L].
  - replace (maxlen d) with (length (items d)) by lia.
    symmetry. apply lastn_tl.
  - symmetry. apply lastn_all. rewrite length_app. cbn. lia.
Qed.

Lemma len_append d a : len d <= maxlen d -> len (append d a) <= maxlen d.
Proof.
  intros H. unfold len at 1. rewrite items_append, length_lastn by exact H. lia.
Qed.

Lemma make_inv n q :
  make n = Ok q -> (0 <= n)%Z /\ items q = [] /\ maxlen q = Z.to_nat n.
Proof.
  unfold make. destruct (Z.ltb_spec n 0); [discriminate|].
  intros E. injection E as <-. auto.
Qed.
End DequeFacts.

(** ** One call of [should_trigger] *)

Lemma step_true d c d' :
  step d c = (true, d') ->
  past_debounce (config d) (_last_triggered d) c = true /\
  (frames_required (config d)
     <= Z.of_nat (Deque.len (Deque.append (_recent_scores d) (score c))))%Z /\
  forallb (fun s => PyFloat.ge s (roll_threshold (config d)))
          (Deque.items (Deque.append (_recent_scores d) (score c))) = true /\
  d' = {| config := config d;
          _recent_scores := Deque.clear (Deque.append (_recent_scores d) (score c));
          _last_triggered := now_or_time (now c) (clock c) |}.
Proof.
  unfold past_debounce, step, should_trigger.
  destruct (_ - _last_triggered d <? debounce_seconds (config d))%float;
    [discriminate|].
  destruct (Z.ltb_spec (Z.of_nat (Deque.len (Deque.append (_recent_scores d) (score c))))
                       (frames_required (config d)));
    [discriminate|].
  destruct (forallb _ _); cbn [negb]; [|discriminate].
  intros E. injection E as <-. auto.
Qed.

Lemma step_false d c d' :
  step d c = (false, d') ->
  config d' = config d /\
  _last_triggered d' = _last_triggered d /\
  _recent_scores d' =
    if past_debounce (config d) (_last_triggered d) c
    then Deque.append (_recent_scores d) (score c)
    else _recent_scores d.
Proof.
  unfold past_debounce, step, should_trigger.
  destruct (_ - _last_triggered d <? debounce_seconds (config d))%float;
    cbn [negb].
  - intros E. injection E as <-. auto.
  - destruct (Z.of_nat _ <? frames_required (config d))%Z.
    + intros E. injection E as <-. auto.
    + destruct (forallb _ _); cbn [negb]; [discriminate|].
      intros E. injection E as <-. auto.
Qed.

Lemma step_inv d c : gate_inv d -> gate_inv (snd (step d c)).
Proof.
  intros (H0 & Hm & Hl).
  destruct (step d c) as [[|] d'] eqn:E; cbn [snd].
  - apply step_true in E. destruct E as (_ & _ & _ & ->).
    unfold gate_inv. cbn. repeat split; auto; lia.
  - apply step_false in E. destruct E as (Ec & _ & Eq).
    unfold gate_inv. rewrite Ec, Eq.
    destruct (past_debounce _ _ c); repeat split; auto.
    rewrite DequeFacts.maxlen_append.
    now apply DequeFacts.len_append.
Qed.

(** ** Reachable states *)

Lemma init_inv cfg d : EyeRollDetector_init cfg = Ok d -> gate_inv d.
Proof.
  unfold EyeRollDetector_init, bind.
  destruct (Deque.make _) as [q|e] eqn:E; [|discriminate].
  apply DequeFacts.make_inv in E. destruct E as (H0 & Hi & Hm).
  intros H. injection H as <-.
  unfold gate_inv, Deque.len. cbn. rewrite Hi. cbn. repeat split; auto; lia.
Qed.

Lemma init_fresh cfg :
  (0 <= frames_required cfg)%Z ->
  EyeRollDetector_init (Some cfg) = Ok (Sample.fresh cfg).
Proof.
  intros H. unfold EyeRollDetector_init, Deque.make, bind.
  destruct (Z.ltb_spec (frames_required cfg) 0); [lia|reflexivity].
Qed.

Lemma reachable_inv cfg d : reachable cfg d -> gate_inv d.
Proof.
  induction 1 as [d H|d c _ IH].
  - exact (init_inv cfg d H).
  - apply step_inv, IH.
Qed.

Lemma reachable_fresh cfg :
  (0 <= frames_required cfg)%Z -> reachable (Some cfg) (Sample.fresh cfg).
Proof. intros H. apply reach_init, init_fresh, H. Qed.

(** ** Sequences of calls *)

Lemma run_cons d c rest :
  run d (c :: rest) =
    (fst (step d c) :: fst (run (snd (step d c)) rest),
     snd (run (snd (step d c)) rest)).
Proof.
  cbn [run]. destruct (step d c) as [b d1]. cbn [fst snd].
  destruct (run d1 rest) as [bs d2]. reflexivity.
Qed.

Lemma run_inv d calls : gate_inv d -> gate_inv (snd (run d calls)).
Proof.
  revert d. induction calls as [|c calls IH]; intros d H; [exact H|].
  rewrite run_cons. cbn [snd]. apply IH, step_inv, H.
Qed.

(** While no call fires, the configuration and the time of the last trigger
    stay, and the deque holds the last [maxlen] of its items followed by the
    scores that got past the debounce check. *)
Lemma run_quiet d calls :
  gate_inv d ->
  Forall (fun b => b = false) (fst (run d calls)) ->
  let d' := snd (run d calls) in
  config d' = config d /\
  _last_triggered d' = _last_triggered d /\
  Deque.maxlen (_recent_scores d') = Deque.maxlen (_recent_scores d) /\
  Deque.items (_recent_scores d') =
    lastn (Deque.maxlen (_recent_scores d))
          (Deque.items (_recent_scores d)
             ++ accumulated (config d) (_last_triggered d) calls).
Proof.
  revert d. induction calls as [|c calls IH]; intros d Hd Hq; cbn zeta.
  - cbn. rewrite app_nil_r, lastn_all; [auto|apply Hd].
  - rewrite run_cons in Hq |- *. cbn [fst snd] in Hq |- *.
    apply Forall_cons_iff in Hq. destruct Hq as [Hc Hq].
    destruct (step d c) as [b d1] eqn:E. cbn [fst snd] in *. subst b.
    pose proof (step_inv d c Hd) as Hd1. rewrite E in Hd1. cbn [snd] in Hd1.
    apply step_false in E. destruct E as (Ec & El & Es).
    specialize (IH d1 Hd1 Hq). cbn zeta in IH.
    destruct IH as (IHc & IHl & IHm & IHi).
    rewrite IHc, IHl, IHm, IHi, Ec, El, Es. clear IHc IHl IHm IHi.
    unfold accumulated. cbn [filter].
    destruct (past_debounce (config d) (_last_triggered d) c); cbn [map].
    + rewrite DequeFacts.maxlen_append. repeat split; auto.
      rewrite DequeFacts.items_append by apply Hd.
      set (n := Deque.maxlen (_recent_scores d)).
      set (rest := map score (filter _ calls)).
      change (score c :: rest) with ([score c] ++ rest).
      rewrite app_assoc.
      destruct (Nat.le_gt_cases (length rest) n) as [L|L].
      * rewrite !(lastn_app n _ rest) by exact L.
        f_equal.
        rewrite <- (lastn_lastn n (n - length rest)
                      (Deque.items (_recent_scores d) ++ [score c])) by lia.
        reflexivity.
      * rewrite !(lastn_app_long n _ rest) by lia. reflexivity.
    + auto.
Qed.

(** ** The five steps of the specification *)

(** With the timestamp the body works with, that is after
    [now = now or time.time()], a call does what the five steps say. *)
Lemma should_trigger_steps d clock score now :
  Deque.maxlen (_recent_scores d) = Z.to_nat (frames_required (config d)) ->
  let r := should_trigger d clock score now in
  (fst r, gate_of (snd r)) =
    TriggerGate.should_trigger (config d) (gate_of d) score (now_or_time now clock).
Proof.
  intros Hm. cbn zeta.
  unfold should_trigger, TriggerGate.should_trigger, PyFloat.ge.
  cbn [gate_of TriggerGate.last_triggered TriggerGate.recent_scores].
  destruct (now_or_time now clock - _last_triggered d <? _)%float; [reflexivity|].
  unfold Deque.len, Deque.append, TriggerGate.fifo_append.
  cbn [Deque.items Deque.maxlen]. rewrite <- Hm.
  destruct (Z.of_nat _ <? frames_required (config d))%Z; [reflexivity|].
  destruct (forallb _ _); reflexivity.
Qed.

(** A supplied timestamp that is not zero is the one the body works with. *)
Corollary should_trigger_steps_supplied d clock score t :
  Deque.maxlen (_recent_scores d) = Z.to_nat (frames_required (config d)) ->
  PyFloat.truthy t = true ->
  let r := should_trigger d clock score (Some t) in
  (fst r, gate_of (snd r)) =
    TriggerGate.should_trigger (config d) (gate_of d) score t.
Proof.
  intros Hm Ht. cbn zeta. rewrite (should_trigger_steps d clock score (Some t) Hm).
  cbn [now_or_time]. now rewrite Ht.
Qed.

(** C1, at the input where the code leaves the five steps.  A fresh gate
    (one frame required, one second of debounce) is called with score [0.9]
    and timestamp [0.0].  Step 1 of the specification sees
    [0.0 - 0.0 < 1.0] and answers [false] without touching the state.  The
    code takes the timestamp [0.0] for a missing one, reads the clock, gets
    past the debounce check, fires, and records the clock reading as the time
    of the last trigger. *)
Theorem should_trigger_zero_timestamp_leaves_steps :
  let d := Sample.fresh Sample.cfg1 in
  EyeRollDetector_init (Some Sample.cfg1) = Ok d /\
  TriggerGate.should_trigger Sample.cfg1 (gate_of d) 0.9 0 = (false, gate_of d) /\
  should_trigger d Sample.epoch_now 0.9 (Some 0%float) =
    (true, {| config := Sample.cfg1;
              _recent_scores := {| Deque.items := []; Deque.maxlen := 1 |};
              _last_triggered := Sample.epoch_now |}).
Proof. repeat split. Qed.

(** ** Determinism *)

(** When every supplied timestamp is non-zero the clock is never consulted:
    the results and the final state are the same whatever the clock reads. *)
Lemma run_supplied_deterministic pairs :
  Forall (fun p => PyFloat.truthy (snd p) = true) pairs ->
  forall d clocks1 clocks2,
    length clocks1 = length clocks2 ->
    run d (supplied clocks1 pairs) = run d (supplied clocks2 pairs).
Proof.
  induction 1 as [|[s t] pairs Ht _ IH]; intros d clocks1 clocks2 Hl.
  - destruct clocks1, clocks2; reflexivity.
  - destruct clocks1 as [|c1 clocks1], clocks2 as [|c2 clocks2];
      try discriminate Hl; [reflexivity|].
    injection Hl as Hl. cbn [supplied]. rewrite !run_cons.
    cbn [snd] in Ht.
    assert (E : step d {| clock := c1; score := s; now := Some t |} =
                step d {| clock := c2; score := s; now := Some t |}).
    { unfold step, should_trigger. cbn [clock score now now_or_time].
      rewrite Ht. reflexivity. }
    rewrite E, (IH _ clocks1 clocks2 Hl). reflexivity.
Qed.

(** C3, at the input where the code is not deterministic.  Two gates built
    from the same configuration are fed the same pairs [(0.9, 0.0)] and
    [(0.9, 0.0)].  The timestamp [0.0] is falsy, so each call reads the clock:
    the gate whose calls come half a second apart answers [true; false], the
    gate whose calls come two seconds apart answers [true; true]. *)
Theorem should_trigger_zero_timestamp_reads_clock :
  let pairs := [(0.9, 0); (0.9, 0)]%float in
  let t := Sample.epoch_now in
  EyeRollDetector_init (Some Sample.cfg1) = Ok (Sample.fresh Sample.cfg1) /\
  fst (run (Sample.fresh Sample.cfg1) (supplied [t; t + 0.5] pairs)%float)
    = [true; false] /\
  fst (run (Sample.fresh Sample.cfg1) (supplied [t; t + 2] pairs)%float)
    = [true; true].
Proof. repeat split. Qed.

(** ** The debounce cooldown *)

(** Inside the cooldown a call answers [false] and changes nothing, when the
    supplied timestamp is not zero. *)
Lemma should_trigger_cooldown d clock score t :
  PyFloat.truthy t = true ->
  (t - _last_triggered d <? debounce_seconds (config d))%float = true ->
  should_trigger d clock score (Some t) = (false, d).
Proof.
  intros Ht H. unfold should_trigger. cbn [now_or_time]. rewrite Ht, H.
  reflexivity.
Qed.

(** C5, at the input where the code accumulates inside the cooldown.  A fresh
    gate with two frames required and one second of debounce is called with
    [(0.9, 0.0)]: [0.0 - 0.0 < 1.0], so the claim has the call answer [false]
    and leave the deque empty.  The code reads the clock instead, gets past
    the debounce check and appends the score; the next call, [(0.9, 1.0)],
    completes a streak of two and fires.  The gate of the specification,
    which kept nothing from the first call, answers [false] to both. *)
Theorem should_trigger_zero_timestamp_accumulates :
  let d := Sample.fresh Sample.cfg2 in
  let r1 := should_trigger d Sample.epoch_now 0.9 (Some 0%float) in
  let r2 := should_trigger (snd r1) Sample.epoch_now 0.9 (Some 1%float) in
  let s1 := TriggerGate.should_trigger Sample.cfg2 (gate_of d) 0.9 0 in
  let s2 := TriggerGate.should_trigger Sample.cfg2 (snd s1) 0.9 1 in
  EyeRollDetector_init (Some Sample.cfg2) = Ok d /\
  (0 - _last_triggered d <? debounce_seconds (config d))%float = true /\
  fst r1 = false /\
  Deque.items (_recent_scores (snd r1)) = [0.9%float] /\
  fst r2 = true /\
  s1 = (false, gate_of d) /\
  fst s2 = false.
Proof. repeat split. Qed.

(** ** Spacing of two fires *)

Lemma run_quiet_last d calls :
  Forall (fun b => b = false) (fst (run d calls)) ->
  config (snd (run d calls)) = config d /\
  _last_triggered (snd (run d calls)) = _last_triggered d.
Proof.
  revert d. induction calls as [|c calls IH]; intros d Hq; [auto|].
  rewrite run_cons in Hq |- *. cbn [fst snd] in Hq |- *.
  apply Forall_cons_iff in Hq. destruct Hq as [Hc Hq].
  destruct (IH _ Hq) as [IHc IHl]. rewrite IHc, IHl.
  destruct (step d c) as [b d1] eqn:E. cbn [fst snd] in *. subst b.
  apply step_false in E. tauto.
Qed.

(** C4 as stated fails on two inputs that the code handles as written.  With
    timestamps [+inf, +inf], which do not decrease, a gate of one frame fires
    twice in a row: [inf - inf] is NaN, and NaN is not below the debounce.
    With a NaN debounce no difference is below it, so calls at [1.0] and
    [1.1] both fire.  In either run the elapsed time is not [>=] the
    debounce. *)
Lemma consecutive_fires_unspaced :
  let t := Sample.epoch_now in
  (EyeRollDetector_init (Some Sample.cfg1) = Ok (Sample.fresh Sample.cfg1) /\
   (infinity <=? infinity)%float = true /\
   fst (run (Sample.fresh Sample.cfg1)
            (supplied [t; t] [(0.9, infinity); (0.9, infinity)]%float))
     = [true; true] /\
   PyFloat.ge (infinity - infinity) (debounce_seconds Sample.cfg1) = false) /\
  (EyeRollDetector_init (Some Sample.cfg_nan_debounce)
     = Ok (Sample.fresh Sample.cfg_nan_debounce) /\
   (1 <=? 1.1)%float = true /\
   fst (run (Sample.fresh Sample.cfg_nan_debounce)
            (supplied [t; t] [(0.9, 1); (0.9, 1.1)]%float))
     = [true; true] /\
   PyFloat.ge (1.1 - 1) (debounce_seconds Sample.cfg_nan_debounce) = false).
Proof. repeat split. Qed.

(** C4, amended.  Take a gate whose debounce is a number, a call that fires,
    any calls that do not fire, and the next call that fires.  If the two
    firing calls were given finite non-zero timestamps [t1] and [t2], then
    [t2 - t1 >= debounce_seconds].  The order of the timestamps plays no
    part: the second fire is checked against the timestamp the first one
    recorded. *)
Theorem consecutive_fires_spaced d c1 d1 quiet c2 d2 t1 t2 :
  step d c1 = (true, d1) ->
  Forall (fun b => b = false) (fst (run d1 quiet)) ->
  step (snd (run d1 quiet)) c2 = (true, d2) ->
  now c1 = Some t1 -> now c2 = Some t2 ->
  PyFloat.truthy t1 = true -> PyFloat.truthy t2 = true ->
  is_finite t1 = true -> is_finite t2 = true ->
  is_nan (debounce_seconds (config d)) = false ->
  PyFloat.ge (t2 - t1) (debounce_seconds (config d)) = true.
Proof.
  intros E1 Hq E2 N1 N2 T1 T2 F1 F2 Hd.
  apply step_true in E1. destruct E1 as (_ & _ & _ & ->).
  destruct (run_quiet_last _ _ Hq) as [Ec El]. cbn in Ec, El.
  apply step_true in E2. destruct E2 as (P & _).
  unfold past_debounce in P. rewrite Ec, El, N1, N2 in P.
  cbn [now_or_time] in P. rewrite T1, T2 in P.
  apply negb_true_iff in P.
  unfold PyFloat.ge. apply FloatFacts.ltb_false_leb; auto.
  now apply FloatFacts.sub_not_nan.
Qed.

(** The debounce test of the repository: fires at [10.0] and [11.1], a
    call inside the cooldown between them. *)
Lemma consecutive_fires_spaced_witness :
  PyFloat.ge (11.1 - 10) (debounce_seconds Sample.cfg1) = true.
Proof.
  apply (consecutive_fires_spaced
           (Sample.fresh Sample.cfg1)
           {| clock := Sample.epoch_now; score := 0.6; now := Some 10%float |}
           {| config := Sample.cfg1;
              _recent_scores := {| Deque.items := []; Deque.maxlen := 1 |};
              _last_triggered := 10 |}
           [{| clock := Sample.epoch_now; score := 0.7; now := Some 10.5%float |}]
           {| clock := Sample.epoch_now; score := 0.8; now := Some 11.1%float |}
           {| config := Sample.cfg1;
              _recent_scores := {| Deque.items := []; Deque.maxlen := 1 |};
              _last_triggered := 11.1 |}
           10%float 11.1%float);
    try reflexivity.
  repeat constructor.
Defined.

(** ** The score of one eye *)

(** C2 as stated fails where the eye top and bottom are the same infinity:
    they compare equal, yet their difference is NaN, the guard
    [eye_height <= 0] does not hold, and the quotient is NaN, not [0.0]. *)
Lemma eye_roll_score_equal_at_infinity :
  let landmarks := Sample.eye infinity infinity 0.5 in
  (infinity =? infinity)%float = true /\
  _eye_roll_score landmarks 0 1 2 = Ok nan /\
  _eye_roll_score landmarks 0 1 2 <> Ok 0%float.
Proof.
  cbn zeta. split; [reflexivity|]. split; [reflexivity|].
  change (_eye_roll_score (Sample.eye infinity infinity 0.5) 0 1 2)
    with (@Ok float nan).
  intros E.
  apply (f_equal (fun r => match r with Ok v => is_nan v | Raise _ => false end)) in E.
  discriminate E.
Qed.

(** C2, amended.  Once the three landmarks are there, [_eye_roll_score] is
    [0.0] when [bottom_y - top_y <= 0] and [(top_y - iris_y) / (bottom_y -
    top_y)] otherwise, and the division never raises.  It is [0.0] when
    [bottom_y < top_y], and when [top_y == bottom_y] for a finite [top_y].
    For [0.2], [0.8], [0.1] it is [(0.2 - 0.1) / (0.8 - 0.2)], within
    [0.0001] of [0.1667]. *)
Theorem eye_roll_score_formula landmarks eye_top eye_bottom iris_center top bottom iris :
  getitem landmarks eye_top = Ok top ->
  getitem landmarks eye_bottom = Ok bottom ->
  getitem landmarks iris_center = Ok iris ->
  let top_y := Landmark.y top in
  let bottom_y := Landmark.y bottom in
  let iris_y := Landmark.y iris in
  let result := _eye_roll_score landmarks eye_top eye_bottom iris_center in
  (result = Ok (if (bottom_y - top_y <=? 0) then 0
                else (top_y - iris_y) / (bottom_y - top_y))%float) /\
  ((bottom_y <? top_y)%float = true -> result = Ok 0%float) /\
  (is_finite top_y = true -> (top_y =? bottom_y)%float = true ->
   result = Ok 0%float) /\
  (let example := _eye_roll_score (Sample.eye 0.2 0.8 0.1) 0 1 2 in
   example = Ok ((0.2 - 0.1) / (0.8 - 0.2))%float /\
   example = Ok 0.16666666666666666%float /\
   (abs (0.16666666666666666 - 0.1667) <? 0.0001)%float = true).
Proof.
  intros Et Eb Ei top_y bottom_y iris_y result.
  assert (F : result = Ok (if (bottom_y - top_y <=? 0) then 0
                           else (top_y - iris_y) / (bottom_y - top_y))%float).
  { subst result. unfold _eye_roll_score. rewrite Et, Eb, Ei. cbn [bind].
    fold top_y bottom_y iris_y.
    destruct (bottom_y - top_y <=? 0)%float eqn:G; [reflexivity|].
    unfold PyFloat.truediv.
    now rewrite (FloatFacts.leb_false_neq _ _ G). }
  split; [exact F|]. split; [|split].
  - intros L. rewrite F, (FloatFacts.sub_of_ltb _ _ L). reflexivity.
  - intros Hf Heq. rewrite F.
    rewrite (FloatFacts.sub_of_eqb _ _ Hf Heq). reflexivity.
  - cbn zeta. repeat split.
Qed.

(** The three cases of the formula on concrete eyes: the score of the
    repository's test, an eye of no height, and an inverted eye. *)
Lemma eye_roll_score_formula_witness :
  _eye_roll_score (Sample.eye 0.2 0.8 0.1) 0 1 2
    = Ok ((0.2 - 0.1) / (0.8 - 0.2))%float /\
  _eye_roll_score (Sample.eye 0.3 0.3 0.1) 0 1 2 = Ok 0%float /\
  _eye_roll_score (Sample.eye 0.8 0.2 0.1) 0 1 2 = Ok 0%float.
Proof.
  split; [|split].
  - exact (proj1 (eye_roll_score_formula (Sample.eye 0.2 0.8 0.1) 0 1 2
                    _ _ _ eq_refl eq_refl eq_refl)).
  - exact (proj1 (proj2 (proj2
             (eye_roll_score_formula (Sample.eye 0.3 0.3 0.1) 0 1 2
                _ _ _ eq_refl eq_refl eq_refl))) eq_refl eq_refl).
  - exact (proj1 (proj2
             (eye_roll_score_formula (Sample.eye 0.8 0.2 0.1) 0 1 2
                _ _ _ eq_refl eq_refl eq_refl)) eq_refl).
Defined.

(** ** The two eyes *)

Lemma eye_roll_score_agree lm1 lm2 i j k :
  agree_at [i; j; k] lm1 lm2 ->
  _eye_roll_score lm1 i j k = _eye_roll_score lm2 i j k.
Proof.
  intros H. unfold agree_at in H.
  rewrite !Forall_cons_iff in H. destruct H as (Hi & Hj & Hk & _).
  unfold _eye_roll_score, getitem. rewrite Hi, Hj, Hk. reflexivity.
Qed.

Lemma process_landmarks_inv lm l r :
  process_landmarks lm = Ok (l, r) ->
  _eye_roll_score lm LEFT_EYE_TOP LEFT_EYE_BOTTOM LEFT_IRIS_CENTER = Ok l /\
  _eye_roll_score lm RIGHT_EYE_TOP RIGHT_EYE_BOTTOM RIGHT_IRIS_CENTER = Ok r.
Proof.
  unfold process_landmarks, bind.
  destruct (_eye_roll_score lm LEFT_EYE_TOP _ _) as [l'|]; [|discriminate].
  destruct (_eye_roll_score lm RIGHT_EYE_TOP _ _) as [r'|]; [|discriminate].
  intros E. apply (f_equal (fun p => match p with Ok v => Some v | _ => None end)) in E.
  cbn in E. split; f_equal; congruence.
Qed.

(** C9.  When [process_landmarks] returns on two landmark collections, the
    left scores are equal as soon as the collections agree at the indices
    159, 145 and 468, whatever the other landmarks are; and the right scores
    are equal as soon as they agree at 386, 374 and 473. *)
Theorem process_landmarks_per_eye lm1 lm2 l1 r1 l2 r2 :
  process_landmarks lm1 = Ok (l1, r1) ->
  process_landmarks lm2 = Ok (l2, r2) ->
  (agree_at [LEFT_EYE_TOP; LEFT_EYE_BOTTOM; LEFT_IRIS_CENTER] lm1 lm2 -> l1 = l2) /\
  (agree_at [RIGHT_EYE_TOP; RIGHT_EYE_BOTTOM; RIGHT_IRIS_CENTER] lm1 lm2 -> r1 = r2).
Proof.
  intros E1 E2.
  apply process_landmarks_inv in E1, E2.
  destruct E1 as [L1 R1], E2 as [L2 R2].
  split; intros H; apply eye_roll_score_agree in H.
  - rewrite L1, L2 in H.
    apply (f_equal (fun p => match p with Ok v => Some v | _ => None end)) in H.
    congruence.
  - rewrite R1, R2 in H.
    apply (f_equal (fun p => match p with Ok v => Some v | _ => None end)) in H.
    congruence.
Qed.

(** Two faces with the same left eye and different right eyes, and two with
    the same right eye and different left eyes. *)
Lemma process_landmarks_per_eye_witness :
  let a := Sample.face 0.2 0.8 0.1 0.3 0.7 0.25 in
  let b := Sample.face 0.2 0.8 0.1 0.9 0.4 0.6 in
  let c := Sample.face 0.9 0.4 0.6 0.3 0.7 0.25 in
  (exists la ra lb rb,
     process_landmarks a = Ok (la, ra) /\ process_landmarks b = Ok (lb, rb) /\
     la = lb) /\
  (exists la ra lc rc,
     process_landmarks a = Ok (la, ra) /\ process_landmarks c = Ok (lc, rc) /\
     ra = rc).
Proof.
  cbn zeta. split.
  - do 4 eexists. split; [reflexivity|]. split; [reflexivity|].
    apply (proj1 (process_landmarks_per_eye
                    (Sample.face 0.2 0.8 0.1 0.3 0.7 0.25)
                    (Sample.face 0.2 0.8 0.1 0.9 0.4 0.6)
                    _ _ _ _ eq_refl eq_refl)).
    repeat constructor.
  - do 4 eexists. split; [reflexivity|]. split; [reflexivity|].
    apply (proj2 (process_landmarks_per_eye
                    (Sample.face 0.2 0.8 0.1 0.3 0.7 0.25)
                    (Sample.face 0.9 0.4 0.6 0.3 0.7 0.25)
                    _ _ _ _ eq_refl eq_refl)).
    repeat constructor.
Defined.

(** ** A fresh gate *)

Lemma init_last_triggered cfg d :
  EyeRollDetector_init cfg = Ok d -> _last_triggered d = 0%float.
Proof.
  unfold EyeRollDetector_init, bind.
  destruct (Deque.make _); [|discriminate].
  intros E. injection E as <-. reflexivity.
Qed.

(** C10.  A detector fresh from its constructor answers [false] to every
    call whose timestamp satisfies [0 < now < debounce_seconds], and such a
    call leaves the state as it was: nothing is appended.  So does any
    sequence of such calls.  ([debounce_seconds > 0] follows from the bounds
    on [now].) *)
Theorem fresh_gate_starts_in_cooldown cfg d :
  EyeRollDetector_init cfg = Ok d ->
  (forall clock score t,
     (0 <? t)%float = true ->
     (t <? debounce_seconds (config d))%float = true ->
     should_trigger d clock score (Some t) = (false, d)) /\
  (forall clocks pairs,
     Forall (fun p => (0 <? snd p)%float = true /\
                      (snd p <? debounce_seconds (config d))%float = true) pairs ->
     Forall (fun b => b = false) (fst (run d (supplied clocks pairs))) /\
     snd (run d (supplied clocks pairs)) = d).
Proof.
  intros Hi.
  assert (One : forall clock score t,
             (0 <? t)%float = true ->
             (t <? debounce_seconds (config d))%float = true ->
             should_trigger d clock score (Some t) = (false, d)).
  { intros clock score t H0 H1. apply should_trigger_cooldown.
    - unfold PyFloat.truthy. now rewrite (FloatFacts.ltb_true_neq _ _ H0).
    - rewrite (init_last_triggered _ _ Hi), FloatFacts.sub_zero. exact H1. }
  split; [exact One|].
  intros clocks pairs H. revert clocks.
  induction H as [|[s t] pairs [H0 H1] _ IH]; intros clocks.
  - destruct clocks; cbn; auto.
  - destruct clocks as [|c clocks]; [cbn; auto|].
    cbn [supplied]. rewrite run_cons. cbn [snd] in H0, H1.
    assert (E : step d {| clock := c; score := s; now := Some t |} = (false, d))
      by exact (One c s t H0 H1).
    rewrite E. cbn [fst snd].
    destruct (IH clocks) as [IH1 IH2]. split; [constructor; auto|exact IH2].
Qed.

(** The default detector, called at half a second. *)
Lemma fresh_gate_starts_in_cooldown_witness :
  should_trigger (Sample.fresh EyeRollConfig_default) Sample.epoch_now 0.9
                 (Some 0.5%float)
    = (false, Sample.fresh EyeRollConfig_default).
Proof.
  apply (proj1 (fresh_gate_starts_in_cooldown None
                  (Sample.fresh EyeRollConfig_default) eq_refl));
    reflexivity.
Defined.

(** ** What a fire requires *)

(** C7.  In every reachable state, a call answers [true] only if the deque,
    after the score is appended, holds exactly [frames_required] scores and
    each of them is [>= roll_threshold]. *)
Theorem fire_needs_full_window cfg d clock score now d' :
  reachable cfg d ->
  should_trigger d clock score now = (true, d') ->
  let window := Deque.items (Deque.append (_recent_scores d) score) in
  Z.of_nat (length window) = frames_required (config d) /\
  Forall (fun s => PyFloat.ge s (roll_threshold (config d)) = true) window.
Proof.
  intros Hr E. apply reachable_inv in Hr. destruct Hr as (H0 & Hm & Hl).
  apply (step_true d {| clock := clock; score := score; now := now |}) in E.
  destruct E as (_ & Hlen & Hall & _).
  change (frames_required (config d)
            <= Z.of_nat (Deque.len (Deque.append (_recent_scores d) score)))%Z
    in Hlen.
  change (forallb (fun s => PyFloat.ge s (roll_threshold (config d)))
            (Deque.items (Deque.append (_recent_scores d) score)) = true)
    in Hall.
  cbn zeta. split.
  - pose proof (DequeFacts.len_append _ score Hl) as Hle.
    unfold Deque.len in *. lia.
  - apply Forall_forall. exact (proj1 (forallb_forall _ _) Hall).
Qed.

(** Two qualifying frames on a gate that requires two. *)
Lemma fire_needs_full_window_witness :
  Z.of_nat (length [0.6; 0.7]%float) = frames_required Sample.cfg2 /\
  Forall (fun s => PyFloat.ge s (roll_threshold Sample.cfg2) = true)
         [0.6; 0.7]%float.
Proof.
  apply (fire_needs_full_window (Some Sample.cfg2)
           (snd (step (Sample.fresh Sample.cfg2)
                      {| clock := Sample.epoch_now; score := 0.6;
                         now := Some 1%float |}))
           Sample.epoch_now 0.7%float (Some 1.1%float)
           {| config := Sample.cfg2;
              _recent_scores := {| Deque.items := []; Deque.maxlen := 2 |};
              _last_triggered := 1.1 |}).
  - apply reach_step, reachable_fresh. cbn. lia.
  - reflexivity.
Defined.

(** ** After a fire *)

Lemma accumulated_snoc cfg last calls c :
  past_debounce cfg last c = true ->
  accumulated cfg last (calls ++ [c]) = accumulated cfg last calls ++ [score c].
Proof.
  intros H. unfold accumulated. rewrite filter_app, map_app. cbn [filter].
  rewrite H. reflexivity.
Qed.

Lemma accumulated_length cfg last calls :
  length (accumulated cfg last calls) <= length calls.
Proof. unfold accumulated. rewrite length_map. apply filter_length_le. Qed.

(** C6.  A call that answers [true] leaves the deque empty.  From there, if
    some calls answer [false] and the next one answers [true], then at least
    [frames_required] of these calls got past the debounce check, and the
    last [frames_required] scores that did are all [>= roll_threshold]: the
    next fire takes a whole new streak, and so at least [frames_required]
    calls. *)
Theorem fire_clears_window cfg d c0 d0 :
  reachable cfg d ->
  step d c0 = (true, d0) ->
  Deque.items (_recent_scores d0) = [] /\
  forall quiet c d2,
    Forall (fun b => b = false) (fst (run d0 quiet)) ->
    step (snd (run d0 quiet)) c = (true, d2) ->
    let streak := accumulated (config d0) (_last_triggered d0) (quiet ++ [c]) in
    let n := Z.to_nat (frames_required (config d0)) in
    n <= length streak /\
    length streak <= length (quiet ++ [c]) /\
    Forall (fun s => PyFloat.ge s (roll_threshold (config d0)) = true)
           (lastn n streak).
Proof.
  intros Hr E0.
  assert (I0 : gate_inv d0).
  { pose proof (step_inv d c0 (reachable_inv _ _ Hr)) as I. now rewrite E0 in I. }
  assert (Z0 : Deque.items (_recent_scores d0) = []).
  { apply step_true in E0. destruct E0 as (_ & _ & _ & ->). reflexivity. }
  split; [exact Z0|].
  intros quiet c d2 Hq E. cbn zeta.
  destruct (run_quiet d0 quiet I0 Hq) as (Ec & El & Em & Ei).
  pose proof (run_inv d0 quiet I0) as I1.
  set (d1 := snd (run d0 quiet)) in *.
  apply step_true in E. destruct E as (P & Hlen & Hall & _).
  rewrite Ec, El in P. rewrite Ec in Hlen, Hall.
  destruct I0 as (H0 & Hm0 & _). destruct I1 as (_ & _ & Hl1).
  assert (W : Deque.items (Deque.append (_recent_scores d1) (score c)) =
              lastn (Z.to_nat (frames_required (config d0)))
                    (accumulated (config d0) (_last_triggered d0) (quiet ++ [c]))).
  { rewrite DequeFacts.items_append by exact Hl1.
    rewrite Em, Ei, Z0, Hm0. cbn [app].
    rewrite lastn_snoc, accumulated_snoc by exact P. reflexivity. }
  unfold Deque.len in Hlen. rewrite W in Hlen, Hall.
  rewrite length_lastn in Hlen.
  split; [lia|]. split; [apply accumulated_length|].
  apply Forall_forall. exact (proj1 (forallb_forall _ _) Hall).
Qed.

(** A gate that requires two frames: it fires at [1.1]; a call inside the
    cooldown and a first qualifying call answer [false]; the second
    qualifying call fires. *)
Lemma fire_clears_window_witness :
  let quiet := supplied [Sample.epoch_now; Sample.epoch_now]
                        [(0.9, 1.5); (0.9, 2.2)]%float in
  let c := {| clock := Sample.epoch_now; score := 0.8; now := Some 2.3%float |} in
  let streak := accumulated Sample.cfg2 1.1 (quiet ++ [c]) in
  streak = [0.9; 0.8]%float /\
  2 <= length streak /\
  length streak <= length (quiet ++ [c]) /\
  Forall (fun s => PyFloat.ge s (roll_threshold Sample.cfg2) = true)
         (lastn 2 streak).
Proof.
  cbn zeta. split; [reflexivity|].
  refine (proj2 (fire_clears_window (Some Sample.cfg2)
             (snd (step (Sample.fresh Sample.cfg2)
                        {| clock := Sample.epoch_now; score := 0.6;
                           now := Some 1%float |}))
             {| clock := Sample.epoch_now; score := 0.7; now := Some 1.1%float |}
             {| config := Sample.cfg2;
                _recent_scores := {| Deque.items := []; Deque.maxlen := 2 |};
                _last_triggered := 1.1 |}
             _ eq_refl)
           (supplied [Sample.epoch_now; Sample.epoch_now]
                     [(0.9, 1.5); (0.9, 2.2)]%float)
           {| clock := Sample.epoch_now; score := 0.8; now := Some 2.3%float |}
           {| config := Sample.cfg2;
              _recent_scores := {| Deque.items := []; Deque.maxlen := 2 |};
              _last_triggered := 2.3 |}
           _ eq_refl).
  - apply reach_step, reachable_fresh. cbn. lia.
  - repeat constructor.
Defined.

(** ** Scores that are not numbers, or out of range *)

(** C8 as stated fails for scores above the practical range: they pass the
    comparison with the threshold like any other score.  The default gate,
    fed [2.0], [+inf] and [1.5] at times past the debounce, fires on the
    third. *)
Lemma out_of_range_scores_fire :
  let scores := [2; infinity; 1.5]%float in
  let d := Sample.fresh EyeRollConfig_default in
  let t := Sample.epoch_now in
  EyeRollDetector_init None = Ok d /\
  forallb TriggerGate.out_of_range scores = true /\
  forallb (fun s => PyFloat.ge s (roll_threshold (config d))) scores = true /\
  fst (run d (supplied [t; t; t] [(2, 5); (infinity, 5.1); (1.5, 5.2)]%float))
    = [false; false; true].
Proof. repeat split. Qed.

Lemma forallb_lastn_snoc (f : float -> bool) n l a :
  1 <= n -> f a = false -> forallb f (lastn n (l ++ [a])) = false.
Proof.
  intros Hn Ha. rewrite lastn_app by exact Hn.
  rewrite forallb_app. cbn [forallb]. rewrite Ha.
  now rewrite andb_false_r.
Qed.

(** C8, amended.  [should_trigger] is total on floats: every call returns a
    boolean and a state, whatever the score, the timestamp and the clock.
    NaN fails [>= roll_threshold] for every threshold.  In a reachable state
    of a gate that requires at least one frame, a call whose score fails the
    comparison (NaN, or any value below the threshold, in range or not)
    answers [false].  A score at or above the threshold counts, in range or
    not. *)
Theorem should_trigger_total d clock score now :
  (exists b d', should_trigger d clock score now = (b, d')) /\
  PyFloat.ge nan (roll_threshold (config d)) = false /\
  (forall cfg,
     reachable cfg d ->
     (1 <= frames_required (config d))%Z ->
     PyFloat.ge score (roll_threshold (config d)) = false ->
     fst (should_trigger d clock score now) = false).
Proof.
  split; [|split].
  - destruct (should_trigger d clock score now) as [b d'] eqn:E. eauto.
  - apply FloatFacts.leb_nan_r.
  - intros cfg Hr H1 Hs. apply reachable_inv in Hr. destruct Hr as (_ & Hm & Hl).
    unfold should_trigger.
    destruct (_ - _ <? _)%float; [reflexivity|].
    destruct (_ <? frames_required _)%Z; [reflexivity|].
    rewrite DequeFacts.items_append by exact Hl.
    rewrite forallb_lastn_snoc; [reflexivity|lia|exact Hs].
Qed.

(** * Beyond the claims *)

(** ** The constructor *)


(** ** The window between fires *)

Lemma run_config d calls : config (snd (run d calls)) = config d.
Proof.
  revert d. induction calls as [|c calls IH]; intros d; [reflexivity|].
  rewrite run_cons. cbn [snd]. rewrite IH.
  destruct (step d c) as [[|] d1] eqn:E; cbn [snd].
  - apply step_true in E. destruct E as (_ & _ & _ & ->). reflexivity.
  - apply step_false in E. tauto.
Qed.

(** X2.  Whatever calls a detector has served since its construction, its
    configuration is the one it was built with, and its deque is bounded by
    [frames_required] and holds at most that many scores. *)
Theorem window_stays_bounded cfg d0 calls :
  EyeRollDetector_init cfg = Ok d0 ->
  let d := snd (run d0 calls) in
  config d = config d0 /\
  Deque.maxlen (_recent_scores d) = Z.to_nat (frames_required (config d0)) /\
  (Z.of_nat (Deque.len (_recent_scores d)) <= frames_required (config d0))%Z.
Proof.
  intros Hi. cbn zeta.
  pose proof (run_inv d0 calls (init_inv _ _ Hi)) as (H0 & Hm & Hl).
  rewrite run_config in H0, Hm. rewrite run_config. repeat split; auto. lia.
Qed.

(** Five qualifying scores on a gate of two frames: it fires twice and ends
    with one score in the deque. *)
Lemma window_stays_bounded_witness :
  let d := snd (run (Sample.fresh Sample.cfg2)
                    (map (fun t => Demo.at_time t 0.9) [1; 2; 3; 4; 5]%float)) in
  config d = Sample.cfg2 /\
  Deque.maxlen (_recent_scores d) = 2 /\
  (Z.of_nat (Deque.len (_recent_scores d)) <= 2)%Z.
Proof.
  exact (window_stays_bounded (Some Sample.cfg2) (Sample.fresh Sample.cfg2)
           (map (fun t => Demo.at_time t 0.9) [1; 2; 3; 4; 5]%float) eq_refl).
Defined.

(** Whether a call fires, as one boolean. *)
Lemma step_fires d c :
  fst (step d c) =
    past_debounce (config d) (_last_triggered d) c
    && negb (Z.of_nat (Deque.len (Deque.append (_recent_scores d) (score c)))
               <? frames_required (config d))%Z
    && forallb (fun s => PyFloat.ge s (roll_threshold (config d)))
               (Deque.items (Deque.append (_recent_scores d) (score c))).
Proof.
  unfold past_debounce, step, should_trigger.
  destruct (_ - _ <? _)%float; [reflexivity|]. cbn [negb andb].
  destruct (_ <? frames_required _)%Z; [reflexivity|]. cbn [negb andb].
  destruct (forallb _ _); reflexivity.
Qed.

(** X3.  Between fires the gate is a sliding window.  Take a reachable state,
    calls that do not fire, and one more call.  The scores that matter are
    those in the deque at the start followed by those of the calls that got
    past the debounce check.  The last call fires exactly when it is past the
    debounce check, there are at least [frames_required] such scores, and the
    last [frames_required] of them are all [>= roll_threshold]. *)
Theorem fires_iff_window_qualifies cfg d quiet c :
  reachable cfg d ->
  Forall (fun b => b = false) (fst (run d quiet)) ->
  let n := Z.to_nat (frames_required (config d)) in
  let history :=
    Deque.items (_recent_scores d)
      ++ accumulated (config d) (_last_triggered d) (quiet ++ [c]) in
  fst (step (snd (run d quiet)) c) = true <->
  past_debounce (config d) (_last_triggered d) c = true /\
  n <= length history /\
  forallb (fun s => PyFloat.ge s (roll_threshold (config d))) (lastn n history)
    = true.
Proof.
  intros Hr Hq. cbn zeta.
  pose proof (reachable_inv _ _ Hr) as I0.
  destruct (run_quiet d quiet I0 Hq) as (Ec & El & Em & Ei).
  pose proof (run_inv d quiet I0) as (_ & _ & Hl1).
  destruct I0 as (H0 & Hm0 & _).
  rewrite step_fires, Ec, El.
  destruct (past_debounce (config d) (_last_triggered d) c) eqn:P;
    [|cbn; split; [discriminate|intros (? & _); discriminate]].
  cbn [andb].
  rewrite DequeFacts.items_append by exact Hl1.
  unfold Deque.len. rewrite DequeFacts.items_append by exact Hl1.
  rewrite Em, Ei, Hm0, lastn_snoc, <- app_assoc.
  rewrite <- (accumulated_snoc _ _ _ _ P).
  set (history := Deque.items (_recent_scores d) ++ accumulated _ _ (quiet ++ [c])).
  rewrite length_lastn.
  rewrite andb_true_iff, negb_true_iff, Z.ltb_ge.
  split.
  - intros [L F]. repeat split; auto. lia.
  - intros (_ & L & F). split; auto. lia.
Qed.

(** The debounce test of the repository with two frames required: after the
    fire at [1.1], a call in the cooldown and one qualifying call are quiet,
    and the next qualifying call fires. *)
Lemma fires_iff_window_qualifies_witness :
  fst (step (snd (run (snd (run (Sample.fresh Sample.cfg2)
                                [Demo.at_time 1 0.6; Demo.at_time 1.1 0.7]))
                      [Demo.at_time 1.5 0.9; Demo.at_time 2.2 0.9]))
            (Demo.at_time 2.3 0.8)) = true.
Proof.
  apply (proj2 (fires_iff_window_qualifies (Some Sample.cfg2)
                  (snd (run (Sample.fresh Sample.cfg2)
                            [Demo.at_time 1 0.6; Demo.at_time 1.1 0.7]))
                  [Demo.at_time 1.5 0.9; Demo.at_time 2.2 0.9]
                  (Demo.at_time 2.3 0.8)
                  (reach_step _ _ (Demo.at_time 1.1 0.7)
                     (reach_step _ _ (Demo.at_time 1 0.6)
                        (reach_init (Some Sample.cfg2)
                                    (Sample.fresh Sample.cfg2) eq_refl)))
                  ltac:(repeat constructor))).
  split; [reflexivity|]. split; [vm_compute; repeat constructor|reflexivity].
Defined.

(** ** Filling the window *)

Lemma len_append_le d a :
  Deque.len d <= Deque.maxlen d -> Deque.len (Deque.append d a) <= S (Deque.len d).
Proof.
  intros H. unfold Deque.len at 1. rewrite DequeFacts.items_append by exact H.
  rewrite length_lastn, length_app. unfold Deque.len. cbn [length]. lia.
Qed.

Lemma short_run_is_quiet d calls :
  gate_inv d ->
  (Z.of_nat (Deque.len (_recent_scores d) + length calls)
     < frames_required (config d))%Z ->
  Forall (fun b => b = false) (fst (run d calls)).
Proof.
  revert d. induction calls as [|c calls IH]; intros d I H; [constructor|].
  rewrite run_cons. cbn [fst]. cbn [length] in H.
  pose proof I as (_ & _ & Hl).
  pose proof (len_append_le _ (score c) Hl) as Ha.
  assert (Hb : fst (step d c) = false).
  { rewrite step_fires.
    destruct (Z.ltb_spec (Z.of_nat (Deque.len (Deque.append (_recent_scores d) (score c))))
                         (frames_required (config d))); [|lia].
    now rewrite andb_false_r. }
  constructor; [exact Hb|].
  apply IH; [apply step_inv, I|].
  destruct (step d c) as [b d1] eqn:E. cbn [fst snd] in *. subst b.
  apply step_false in E. destruct E as (Ec & _ & Es). rewrite Ec, Es.
  destruct (past_debounce _ _ c); lia.
Qed.

(** X4.  A detector fresh from its constructor does not fire during its
    first [frames_required - 1] calls, whatever their scores and
    timestamps. *)
Theorem fresh_gate_needs_frames cfg d calls :
  EyeRollDetector_init cfg = Ok d ->
  (Z.of_nat (length calls) < frames_required (config d))%Z ->
  Forall (fun b => b = false) (fst (run d calls)).
Proof.
  intros Hi H. apply short_run_is_quiet; [exact (init_inv _ _ Hi)|].
  assert (E : Deque.len (_recent_scores d) = 0).
  { revert Hi. unfold EyeRollDetector_init, Deque.make, bind.
    destruct (_ <? 0)%Z; [discriminate|]. intros Hi. now injection Hi as <-. }
  rewrite E. exact H.
Qed.

(** The default detector, two frames well above the threshold and well past
    the debounce. *)
Lemma fresh_gate_needs_frames_witness :
  Forall (fun b => b = false)
         (fst (run (Sample.fresh EyeRollConfig_default)
                   [Demo.at_time 5 0.9; Demo.at_time 6 0.9])).
Proof.
  apply (fresh_gate_needs_frames None (Sample.fresh EyeRollConfig_default)
           [Demo.at_time 5 0.9; Demo.at_time 6 0.9] eq_refl).
  reflexivity.
Defined.

(** ** One score below the threshold *)

Lemma blocked_run calls : forall d front x back,
  gate_inv d ->
  Deque.items (_recent_scores d) = front ++ x :: back ->
  PyFloat.ge x (roll_threshold (config d)) = false ->
  length back + length calls < Deque.maxlen (_recent_scores d) ->
  Forall (fun b => b = false) (fst (run d calls)).
Proof.
  induction calls as [|c calls IH]; intros d front x back I Hi Hx Hn;
    [constructor|].
  rewrite run_cons. cbn [fst]. cbn [length] in Hn.
  pose proof I as (_ & _ & Hl).
  assert (Ha : Deque.items (Deque.append (_recent_scores d) (score c)) =
               lastn (Deque.maxlen (_recent_scores d) - length (x :: back ++ [score c]))
                     front ++ x :: back ++ [score c]).
  { rewrite DequeFacts.items_append by exact Hl.
    rewrite Hi, <- app_assoc. cbn [app].
    apply lastn_app. cbn [length]. rewrite length_app. cbn [length]. lia. }
  assert (Hb : fst (step d c) = false).
  { rewrite step_fires, Ha, forallb_app. cbn [forallb]. rewrite Hx.
    cbn [andb]. now rewrite !andb_false_r. }
  constructor; [exact Hb|].
  pose proof (step_inv d c I) as I1.
  destruct (step d c) as [b d1] eqn:E. cbn [fst snd] in *. subst b.
  apply step_false in E. destruct E as (Ec & _ & Es).
  destruct (past_debounce (config d) (_last_triggered d) c).
  - apply (IH d1 (lastn (Deque.maxlen (_recent_scores d)
                            - length (x :: back ++ [score c])) front)
              x (back ++ [score c]) I1).
    + rewrite Es. exact Ha.
    + now rewrite Ec.
    + rewrite Es, DequeFacts.maxlen_append, length_app. cbn [length]. lia.
  - apply (IH d1 front x back I1).
    + now rewrite Es.
    + now rewrite Ec.
    + rewrite Es. lia.
Qed.

(** X5.  A score that fails [>= roll_threshold] and enters the deque costs a
    whole window: in a reachable state, the call that brings it and the
    [frames_required - 1] calls after it do not fire, whatever they bring. *)
Theorem low_score_blocks_window cfg d c calls :
  reachable cfg d ->
  past_debounce (config d) (_last_triggered d) c = true ->
  PyFloat.ge (score c) (roll_threshold (config d)) = false ->
  (Z.of_nat (length calls) < frames_required (config d))%Z ->
  Forall (fun b => b = false) (fst (run d (c :: calls))).
Proof.
  intros Hr P Hx Hn. pose proof (reachable_inv _ _ Hr) as I.
  pose proof I as (H0 & Hm & Hl).
  rewrite run_cons. cbn [fst].
  assert (Ha : Deque.items (Deque.append (_recent_scores d) (score c)) =
               lastn (Deque.maxlen (_recent_scores d) - 1)
                     (Deque.items (_recent_scores d)) ++ [score c]).
  { rewrite DequeFacts.items_append by exact Hl.
    apply lastn_app. cbn [length]. lia. }
  assert (Hb : fst (step d c) = false).
  { rewrite step_fires, Ha, forallb_app. cbn [forallb]. rewrite Hx.
    cbn [andb]. now rewrite !andb_false_r. }
  constructor; [exact Hb|].
  pose proof (step_inv d c I) as I1.
  destruct (step d c) as [b d1] eqn:E. cbn [fst snd] in *. subst b.
  apply step_false in E. destruct E as (Ec & _ & Es). rewrite P in Es.
  apply (blocked_run calls d1
           (lastn (Deque.maxlen (_recent_scores d) - 1)
                  (Deque.items (_recent_scores d)))
           (score c) [] I1).
  - rewrite Es. exact Ha.
  - now rewrite Ec.
  - rewrite Es, DequeFacts.maxlen_append. cbn [length]. lia.
Qed.

(** The default detector: [0.4] at second 5, then two scores well above the
    threshold. *)
Lemma low_score_blocks_window_witness :
  Forall (fun b => b = false)
         (fst (run (Sample.fresh EyeRollConfig_default)
                   [Demo.at_time 5 0.4; Demo.at_time 6 0.9; Demo.at_time 7 0.9])).
Proof.
  apply (low_score_blocks_window None (Sample.fresh EyeRollConfig_default)
           (Demo.at_time 5 0.4) [Demo.at_time 6 0.9; Demo.at_time 7 0.9]
           (reach_init None _ eq_refl));
    reflexivity.
Defined.

(** ** No frame required *)

(** X6.  With [frames_required = 0] the deque never holds anything and the
    score plays no part: in a reachable state a call fires exactly when it
    is past the debounce check, be its score below the threshold or NaN. *)
Theorem zero_frames_fires_on_every_call cfg d c :
  reachable cfg d ->
  frames_required (config d) = 0%Z ->
  fst (step d c) = past_debounce (config d) (_last_triggered d) c /\
  Deque.items (_recent_scores (snd (step d c))) = [].
Proof.
  intros Hr H0. pose proof (reachable_inv _ _ Hr) as (_ & Hm & Hl).
  rewrite H0 in Hm. cbn in Hm.
  assert (Ha : Deque.items (Deque.append (_recent_scores d) (score c)) = []).
  { rewrite DequeFacts.items_append by exact Hl. rewrite Hm.
    unfold lastn. rewrite Nat.sub_0_r. apply skipn_all. }
  assert (Hi : Deque.items (_recent_scores d) = []).
  { unfold Deque.len in Hl. rewrite Hm in Hl.
    destruct (Deque.items (_recent_scores d)); [reflexivity|cbn in Hl; lia]. }
  split.
  - rewrite step_fires. unfold Deque.len. rewrite Ha, H0. cbn.
    now rewrite !andb_true_r.
  - destruct (step d c) as [[|] d1] eqn:E; cbn [snd].
    + apply step_true in E. destruct E as (_ & _ & _ & ->). reflexivity.
    + apply step_false in E. destruct E as (_ & _ & ->).
      destruct (past_debounce _ _ c); [exact Ha|exact Hi].
Qed.

(** A NaN score on a gate that requires no frame. *)
Lemma zero_frames_fires_on_every_call_witness :
  fst (step (Sample.fresh Demo.cfg0) (Demo.at_time 5 nan)) = true.
Proof.
  exact (proj1 (zero_frames_fires_on_every_call (Some Demo.cfg0)
                  (Sample.fresh Demo.cfg0) (Demo.at_time 5 nan)
                  (reach_init (Some Demo.cfg0) _ eq_refl) eq_refl)).
Defined.

(** ** Timestamps *)

Lemma eqb_zero_inv t : (t =? 0)%float = true -> t = 0%float \/ t = (-0)%float.
Proof.
  rewrite eqb_spec. change (Prim2SF 0) with (S754_zero false).
  unfold SFeqb. intros H.
  rewrite <- (SF2Prim_Prim2SF t).
  destruct (Prim2SF t) as [[|]|[|]| |[|] m e]; try discriminate H.
  - right. reflexivity.
  - left. reflexivity.
Qed.

(** X7.  The timestamps that [now or time.time()] throws away are exactly
    [0.0] and [-0.0]: a call that supplies one of them does what a call with
    no timestamp does, whatever the state.  Every other timestamp, NaN
    included, is used as given, and the clock then has no influence on the
    call. *)
Theorem zero_timestamp_is_no_timestamp t :
  (PyFloat.truthy t = false <-> t = 0%float \/ t = (-0)%float) /\
  (PyFloat.truthy t = false ->
   forall d clock s,
     should_trigger d clock s (Some t) = should_trigger d clock s None) /\
  (PyFloat.truthy t = true ->
   forall d clock1 clock2 s,
     should_trigger d clock1 s (Some t) = should_trigger d clock2 s (Some t)) /\
  PyFloat.truthy nan = true.
Proof.
  repeat split.
  - unfold PyFloat.truthy. intros H. apply negb_false_iff in H.
    now apply eqb_zero_inv.
  - intros [-> | ->]; reflexivity.
  - intros H d clock s. unfold should_trigger, now_or_time. now rewrite H.
  - intros H d clock1 clock2 s. unfold should_trigger, now_or_time. now rewrite H.
Qed.

(** ** Calls inside the cooldown *)

(** X8.  Calls that come while [now - last_triggered < debounce_seconds],
    for the timestamp each works with, answer [false] and change nothing:
    the calls after them run as if the cooldown calls had never been made. *)
Theorem cooldown_calls_change_nothing d cool rest :
  Forall (fun c => (effective c - _last_triggered d
                      <? debounce_seconds (config d))%float = true) cool ->
  run d (cool ++ rest) =
    (repeat false (length cool) ++ fst (run d rest), snd (run d rest)).
Proof.
  induction 1 as [|c cool Hc _ IH].
  - cbn. now destruct (run d rest).
  - cbn [app]. rewrite run_cons.
    assert (E : step d c = (false, d)).
    { unfold step, should_trigger. unfold effective in Hc. now rewrite Hc. }
    rewrite E. cbn [fst snd]. rewrite IH. reflexivity.
Qed.

(** After the fire at [10.0] of the debounce test, two calls inside the
    cooldown, then the call at [11.1]. *)
Lemma cooldown_calls_change_nothing_witness :
  let d := snd (step (Sample.fresh Sample.cfg1) (Demo.at_time 10 0.6)) in
  run d ([Demo.at_time 10.5 0.7; Demo.at_time 10.9 0.9] ++ [Demo.at_time 11.1 0.8])
    = (repeat false 2 ++ fst (run d [Demo.at_time 11.1 0.8]),
       snd (run d [Demo.at_time 11.1 0.8])).
Proof.
  cbn zeta.
  apply (cooldown_calls_change_nothing
           (snd (step (Sample.fresh Sample.cfg1) (Demo.at_time 10 0.6)))
           [Demo.at_time 10.5 0.7; Demo.at_time 10.9 0.9]
           [Demo.at_time 11.1 0.8]).
  repeat constructor.
Defined.

(** ** Fires on the clock *)

(** X9.  Two fires in a row are at least [debounce_seconds] apart by the
    timestamps the calls worked with: the supplied one, or the clock reading
    when none (or zero) was supplied, as in the camera loop.  It takes a
    debounce that is a number and two finite timestamps. *)
Theorem fires_spaced_on_effective_time d c1 d1 quiet c2 d2 :
  step d c1 = (true, d1) ->
  Forall (fun b => b = false) (fst (run d1 quiet)) ->
  step (snd (run d1 quiet)) c2 = (true, d2) ->
  is_finite (effective c1) = true ->
  is_finite (effective c2) = true ->
  is_nan (debounce_seconds (config d)) = false ->
  PyFloat.ge (effective c2 - effective c1) (debounce_seconds (config d)) = true /\
  _last_triggered d1 = effective c1 /\
  _last_triggered d2 = effective c2.
Proof.
  intros E1 Hq E2 F1 F2 Hd.
  apply step_true in E1. destruct E1 as (_ & _ & _ & ->).
  destruct (run_quiet_last _ _ Hq) as [Ec El]. cbn in Ec, El.
  apply step_true in E2. destruct E2 as (P & _ & _ & ->).
  unfold past_debounce in P. rewrite Ec, El in P.
  apply negb_true_iff in P.
  split; [|split; reflexivity].
  unfold PyFloat.ge. apply FloatFacts.ltb_false_leb; auto.
  now apply FloatFacts.sub_not_nan.
Qed.

(** Calls without a timestamp on a gate of one frame: the clock reads 100,
    100.4 and 101.5 seconds. *)
Lemma fires_spaced_on_effective_time_witness :
  PyFloat.ge (101.5 - 100) (debounce_seconds Sample.cfg1) = true /\
  _last_triggered (snd (step (Sample.fresh Sample.cfg1) (Demo.at_clock 100 0.9)))
    = 100%float /\
  _last_triggered
    (snd (step (snd (run (snd (step (Sample.fresh Sample.cfg1)
                                    (Demo.at_clock 100 0.9)))
                         [Demo.at_clock 100.4 0.9]))
               (Demo.at_clock 101.5 0.9)))
    = 101.5%float.
Proof.
  apply (fires_spaced_on_effective_time
           (Sample.fresh Sample.cfg1) (Demo.at_clock 100 0.9)
           (snd (step (Sample.fresh Sample.cfg1) (Demo.at_clock 100 0.9)))
           [Demo.at_clock 100.4 0.9] (Demo.at_clock 101.5 0.9)
           (snd (step (snd (run (snd (step (Sample.fresh Sample.cfg1)
                                           (Demo.at_clock 100 0.9)))
                                [Demo.at_clock 100.4 0.9]))
                      (Demo.at_clock 101.5 0.9))));
    try reflexivity.
  repeat constructor.
Defined.

(** ** The clock and supplied timestamps *)

(** Two calls that differ at most in the clock reading, and supply a
    non-zero timestamp. *)
Lemma step_same_but_clock d a b t :
  score a = score b -> now a = Some t -> now b = Some t ->
  PyFloat.truthy t = true -> step d a = step d b.
Proof.
  intros Hs Ha Hb Ht. unfold step, should_trigger.
  rewrite Hs, Ha, Hb. cbn [now_or_time]. now rewrite Ht.
Qed.

(** X10.  Two sequences of calls with the same scores and the same supplied
    non-zero timestamps give the same results and the same final state, from
    any state, whatever the clock reads during either. *)
Theorem supplied_timestamps_hide_clock calls1 calls2 :
  Forall2 (fun a b => score a = score b /\ now a = now b /\
                      exists t, now a = Some t /\ PyFloat.truthy t = true)
          calls1 calls2 ->
  forall d, run d calls1 = run d calls2.
Proof.
  induction 1 as [|a b calls1 calls2 (Hs & Hn & t & Ht & Hz) _ IH]; intros d;
    [reflexivity|].
  rewrite !run_cons.
  rewrite (step_same_but_clock d a b t Hs Ht (eq_trans (eq_sym Hn) Ht) Hz).
  now rewrite IH.
Qed.

(** The debounce test of the repository, once at the epoch clock and once
    at a clock that reads zero. *)
Lemma supplied_timestamps_hide_clock_witness :
  run (Sample.fresh Sample.cfg1)
      [Demo.at_time 10 0.6; Demo.at_time 10.5 0.7; Demo.at_time 11.1 0.8]
  = run (Sample.fresh Sample.cfg1)
        (supplied [0; 0; 0] [(0.6, 10); (0.7, 10.5); (0.8, 11.1)])%float.
Proof.
  apply (supplied_timestamps_hide_clock
           [Demo.at_time 10 0.6; Demo.at_time 10.5 0.7; Demo.at_time 11.1 0.8]
           (supplied [0; 0; 0] [(0.6, 10); (0.7, 10.5); (0.8, 11.1)])%float).
  repeat constructor; eexists; split; reflexivity.
Defined.

(** ** Exceptions of the score *)

Lemma getitem_ok lm i : i < length lm -> exists p, getitem lm i = Ok p.
Proof.
  intros H. unfold getitem.
  destruct (nth_error lm i) as [p|] eqn:E; [eauto|].
  apply nth_error_None in E. lia.
Qed.

Lemma getitem_raise lm i : length lm <= i -> getitem lm i = Raise IndexError.
Proof.
  intros H. unfold getitem. apply nth_error_None in H. now rewrite H.
Qed.

Lemma eye_roll_score_ok lm i j k :
  i < length lm -> j < length lm -> k < length lm ->
  exists v, _eye_roll_score lm i j k = Ok v.
Proof.
  intros Hi Hj Hk.
  destruct (getitem_ok lm i Hi) as [top Et].
  destruct (getitem_ok lm j Hj) as [bottom Eb].
  destruct (getitem_ok lm k Hk) as [iris Ei].
  unfold _eye_roll_score. rewrite Et, Eb, Ei. cbn [bind].
  destruct (_ <=? 0)%float eqn:G; [eauto|].
  unfold PyFloat.truediv. rewrite (FloatFacts.leb_false_neq _ _ G). eauto.
Qed.

Lemma eye_roll_score_index_error lm i j k :
  length lm <= i \/ length lm <= j \/ length lm <= k ->
  _eye_roll_score lm i j k = Raise IndexError.
Proof.
  intros H. unfold _eye_roll_score.
  destruct (Nat.le_gt_cases (length lm) i) as [Li|Li];
    [now rewrite (getitem_raise _ _ Li)|].
  destruct (getitem_ok lm i Li) as [top ->]. cbn [bind].
  destruct (Nat.le_gt_cases (length lm) j) as [Lj|Lj];
    [now rewrite (getitem_raise _ _ Lj)|].
  destruct (getitem_ok lm j Lj) as [bottom ->]. cbn [bind].
  destruct (Nat.le_gt_cases (length lm) k) as [Lk|Lk];
    [now rewrite (getitem_raise _ _ Lk)|].
  lia.
Qed.


Lemma process_landmarks_cases lm :
  (474 <= length lm -> exists l r, process_landmarks lm = Ok (l, r)) /\
  (length lm < 474 -> process_landmarks lm = Raise IndexError).
Proof.
  unfold process_landmarks. split; intros H.
  - destruct (eye_roll_score_ok lm LEFT_EYE_TOP LEFT_EYE_BOTTOM LEFT_IRIS_CENTER)
      as [l ->]; try (unfold LEFT_EYE_TOP, LEFT_EYE_BOTTOM, LEFT_IRIS_CENTER; lia).
    destruct (eye_roll_score_ok lm RIGHT_EYE_TOP RIGHT_EYE_BOTTOM RIGHT_IRIS_CENTER)
      as [r ->]; try (unfold RIGHT_EYE_TOP, RIGHT_EYE_BOTTOM, RIGHT_IRIS_CENTER; lia).
    cbn [bind]. eauto.
  - destruct (Nat.le_gt_cases (length lm) LEFT_IRIS_CENTER) as [L|L].
    + rewrite (eye_roll_score_index_error lm LEFT_EYE_TOP)
        by (right; right; exact L).
      reflexivity.
    + destruct (eye_roll_score_ok lm LEFT_EYE_TOP LEFT_EYE_BOTTOM LEFT_IRIS_CENTER)
        as [l ->]; try (unfold LEFT_EYE_TOP, LEFT_EYE_BOTTOM, LEFT_IRIS_CENTER in *; lia).
      cbn [bind].
      rewrite (eye_roll_score_index_error lm RIGHT_EYE_TOP)
        by (right; right; unfold RIGHT_IRIS_CENTER; lia).
      reflexivity.
Qed.

(** X12.  [process_landmarks] returns the two scores when the collection
    holds at least 474 landmarks, so that index 473 exists, and raises
    [IndexError] when it holds fewer: the 468 landmarks of a face mesh
    without iris refinement are not enough. *)
Theorem process_landmarks_needs_474 lm :
  (474 <= length lm -> exists l r, process_landmarks lm = Ok (l, r)) /\
  (length lm < 474 -> process_landmarks lm = Raise IndexError).
Proof. exact (process_landmarks_cases lm). Qed.

(** A face of 478 landmarks, and the first 468 of them. *)
Lemma process_landmarks_needs_474_witness :
  (exists l r,
     process_landmarks (Sample.face 0.2 0.8 0.1 0.3 0.7 0.25) = Ok (l, r)) /\
  process_landmarks (firstn 468 (Sample.face 0.2 0.8 0.1 0.3 0.7 0.25))
    = Raise IndexError.
Proof.
  split.
  - apply (proj1 (process_landmarks_needs_474
                    (Sample.face 0.2 0.8 0.1 0.3 0.7 0.25))).
    vm_compute. repeat constructor.
  - apply (proj2 (process_landmarks_needs_474
                    (firstn 468 (Sample.face 0.2 0.8 0.1 0.3 0.7 0.25)))).
    vm_compute. repeat constructor.
Defined.

(** ** The sign of the score *)

Module SFSign.
Import SF.
Local Open Scope Z_scope.

Lemma binary_normalize_pos m e sz :
  0 < m -> signed false (binary_normalize prec emax m e sz).
Proof.
  destruct m; try lia. intros _. apply SFFacts.binary_round_signed.
Qed.

(** [x < y] gives [x - y] the sign of a negative number and [y - x] that of
    a positive one; neither is NaN. *)
Lemma sub_signed_of_lt x y :
  valid_binary x = true -> valid_binary y = true ->
  SFltb x y = true ->
  signed true (SF64sub x y) /\ signed false (SF64sub y x).
Proof.
  intros Vx Vy H. unfold SFltb in H.
  destruct (SFcompare x y) as [[| |]|] eqn:C; try discriminate. clear H.
  destruct x as [sx|sx| |sx mx ex], y as [sy|sy| |sy my ey];
    try discriminate C;
    try solve [repeat match goal with s : bool |- _ => destruct s end;
               try discriminate C; split; reflexivity].
  pose proof (SFFacts.compare_lt_aligned _ _ _ _ _ _ Vx Vy C) as L.
  unfold aligned in L. unfold SF64sub, SFsub. split.
  - apply SFFacts.binary_normalize_neg. lia.
  - apply binary_normalize_pos. rewrite (Z.min_comm ey ex). lia.
Qed.

Lemma div_core_nonneg m1 e1 m2 e2 :
  0 <= fst (fst (SFdiv_core_binary prec emax (Z.pos m1) e1 (Z.pos m2) e2)).
Proof.
  unfold SFdiv_core_binary.
  set (s := _ - _ - Z.min _ _).
  set (m' := match s with Z.pos _ => Z.shiftl (Z.pos m1) s | 0 => Z.pos m1 | Z.neg _ => 0 end).
  assert (H : 0 <= m').
  { subst m'. destruct s; try lia. apply Z.shiftl_nonneg. lia. }
  pose proof (Z.div_pos m' (Z.pos m2) H ltac:(lia)) as Q.
  unfold Z.div in Q. destruct (Z.div_eucl m' (Z.pos m2)) as [q r]. exact Q.
Qed.

(** A quotient is NaN for inf/inf, 0/0 and NaN operands; otherwise it has
    the sign that the signs of its operands give. *)
Lemma div_signed sx sy x y :
  signed sx x -> signed sy y ->
  match x, y with
  | S754_infinity _, S754_infinity _ | S754_zero _, S754_zero _ =>
      SF64div x y = S754_nan
  | _, _ => signed (xorb sx sy) (SF64div x y)
  end.
Proof.
  destruct x as [s1|s1| |s1 m1 e1], y as [s2|s2| |s2 m2 e2];
    cbn [signed]; try contradiction; intros <- <-; try reflexivity.
  unfold SF64div, SFdiv.
  pose proof (div_core_nonneg m1 e1 m2 e2) as Q.
  destruct (SFdiv_core_binary prec emax (Z.pos m1) e1 (Z.pos m2) e2) as [[q e] l].
  apply SFFacts.binary_round_aux_signed. exact Q.
Qed.

Lemma signed_false_not_negative x :
  signed false x -> SFltb x (S754_zero false) = false /\
                    SFleb (S754_zero false) x = true.
Proof.
  destruct x as [s|s| |s m e]; cbn [signed]; try contradiction;
    intros ->; split; reflexivity.
Qed.

Lemma signed_true_not_positive x :
  signed true x -> SFltb (S754_zero false) x = false /\
                   SFleb x (S754_zero false) = true.
Proof.
  destruct x as [s|s| |s m e]; cbn [signed]; try contradiction;
    intros ->; split; reflexivity.
Qed.

(** A height that fails [h <= 0] is NaN or positive. *)
Lemma not_leb_zero h :
  SFleb h (S754_zero false) = false ->
  h = S754_nan \/
  (signed false h /\ match h with S754_zero _ => False | _ => True end).
Proof.
  destruct h as [s|[|]| |[|] m e]; cbn; intros H; try discriminate H; auto.
Qed.

(** The quotient by a height that fails [h <= 0]. *)
Lemma div_by_height s n h :
  signed s n ->
  SFleb h (S754_zero false) = false ->
  SF64div n h = S754_nan \/ signed s (SF64div n h).
Proof.
  intros Hn Hh. apply not_leb_zero in Hh. destruct Hh as [-> | [Hs Hz]].
  - left. destruct n; reflexivity.
  - pose proof (div_signed s false n h Hn Hs) as D.
    rewrite xorb_false_r in D.
    destruct n as [s1|s1| |s1 m1 e1], h as [s2|s2| |s2 m2 e2];
      try contradiction; auto.
Qed.

(** The same for finite operands: the quotient is a number. *)
Lemma div_by_finite_height s n h :
  signed s n -> finite n -> finite h ->
  SFleb h (S754_zero false) = false ->
  signed s (SF64div n h).
Proof.
  intros Hn Fn Fh Hh. apply not_leb_zero in Hh.
  destruct Hh as [-> | [Hs Hz]]; [contradiction|].
  pose proof (div_signed s false n h Hn Hs) as D.
  rewrite xorb_false_r in D.
  destruct n as [s1|s1| |s1 m1 e1], h as [s2|s2| |s2 m2 e2];
    try contradiction; auto.
Qed.

End SFSign.

(** X13.  The score has the sign of the iris position relative to the eye
    top.  With the iris above the top ([iris_y < top_y]) the score is never
    negative, and it is [>= 0] when the two differences are finite; with the
    iris below the top ([top_y < iris_y]) it is never positive.  This holds
    for every eye height, the degenerate ones included. *)
Theorem eye_roll_score_sign lm i j k top bottom iris v :
  getitem lm i = Ok top ->
  getitem lm j = Ok bottom ->
  getitem lm k = Ok iris ->
  _eye_roll_score lm i j k = Ok v ->
  let top_y := Landmark.y top in
  let bottom_y := Landmark.y bottom in
  let iris_y := Landmark.y iris in
  ((iris_y <? top_y)%float = true ->
   (v <? 0)%float = false /\
   (is_finite (top_y - iris_y) = true -> is_finite (bottom_y - top_y) = true ->
    (0 <=? v)%float = true)) /\
  ((top_y <? iris_y)%float = true -> (0 <? v)%float = false).
Proof.
  intros Et Eb Ei Ev top_y bottom_y iris_y.
  unfold _eye_roll_score in Ev. rewrite Et, Eb, Ei in Ev. cbn [bind] in Ev.
  fold top_y bottom_y iris_y in Ev.
  destruct (bottom_y - top_y <=? 0)%float eqn:G.
  { assert (v = 0%float) as ->.
    { apply (f_equal (fun r => match r with Ok x => x | Raise _ => v end)) in Ev.
      now symmetry. }
    repeat split. }
  unfold PyFloat.truediv in Ev. rewrite (FloatFacts.leb_false_neq _ _ G) in Ev.
  assert (v = ((top_y - iris_y) / (bottom_y - top_y))%float) as ->.
  { apply (f_equal (fun r => match r with Ok x => x | Raise _ => v end)) in Ev.
    now symmetry. }
  clear Ev. rewrite leb_spec in G. change (Prim2SF 0) with (S754_zero false) in G.
  split.
  - intros L. rewrite ltb_spec in L.
    destruct (SFSign.sub_signed_of_lt _ _ (Prim2SF_valid iris_y)
                (Prim2SF_valid top_y) L) as [_ S].
    fold SF64sub in S. rewrite <- sub_spec in S. split.
    + rewrite ltb_spec, div_spec. change (Prim2SF 0) with (S754_zero false).
      destruct (SFSign.div_by_height false _ _ S G) as [-> | D];
        [reflexivity|].
      apply (SFSign.signed_false_not_negative _ D).
    + intros Fn Fh. apply FloatFacts.is_finite_spec in Fn, Fh.
      rewrite leb_spec, div_spec. change (Prim2SF 0) with (S754_zero false).
      apply SFSign.signed_false_not_negative.
      now apply SFSign.div_by_finite_height.
  - intros L. rewrite ltb_spec in L.
    destruct (SFSign.sub_signed_of_lt _ _ (Prim2SF_valid top_y)
                (Prim2SF_valid iris_y) L) as [S _].
    fold SF64sub in S. rewrite <- sub_spec in S.
    rewrite ltb_spec, div_spec. change (Prim2SF 0) with (S754_zero false).
    destruct (SFSign.div_by_height true _ _ S G) as [-> | D];
      [reflexivity|].
    apply (SFSign.signed_true_not_positive _ D).
Qed.

(** The eye of the repository's test, its iris above the top, and the same
    eye with the iris halfway down. *)
Lemma eye_roll_score_sign_witness :
  ((0.16666666666666666 <? 0)%float = false /\
   (0 <=? 0.16666666666666666)%float = true) /\
  (0 <? (0.2 - 0.5) / (0.8 - 0.2))%float = false.
Proof.
  split.
  - pose proof (proj1 (eye_roll_score_sign (Sample.eye 0.2 0.8 0.1) 0 1 2
                         _ _ _ 0.16666666666666666%float
                         eq_refl eq_refl eq_refl eq_refl) eq_refl) as [A B].
    split; [exact A|exact (B eq_refl eq_refl)].
  - exact (proj2 (eye_roll_score_sign (Sample.eye 0.2 0.8 0.5) 0 1 2
                    _ _ _ ((0.2 - 0.5) / (0.8 - 0.2))%float
                    eq_refl eq_refl eq_refl eq_refl) eq_refl).
Defined.

(** ** The camera loop *)

Section CameraLoop.
Context {W : Type}.
Variable act : W -> W.

Lemma loop_pass f rest self w :
  Camera.passes f = true ->
  Camera.loop act self w (f :: rest) =
    match Camera.frame_call f with
    | Some c =>
        Camera.loop act (snd (step self c))
                    (if fst (step self c) then act w else w) rest
    | None => Camera.loop act self w rest
    end.
Proof.
  unfold Camera.passes, Camera.frame_call. cbn [Camera.loop].
  destruct (Camera.read_ok f); [|discriminate].
  destruct (Camera.esc (Camera.key f)); [discriminate|]. cbn [negb andb].
  destruct (Camera.multi_face_landmarks f) as [|lm more]; [reflexivity|].
  destruct (process_landmarks lm) as [[l r]|e]; [|discriminate].
  intros _. unfold step. cbn [clock score now].
  destruct (should_trigger self _ _ None) as [b d1]. reflexivity.
Qed.

Lemma loop_passes frames : forall rest self w,
  Forall (fun f => Camera.passes f = true) frames ->
  Camera.loop act self w (frames ++ rest) =
    Camera.loop act
      (snd (run self (Camera.calls_of frames)))
      (Nat.iter (length (filter (fun b => b)
                                (fst (run self (Camera.calls_of frames)))))
                act w)
      rest.
Proof.
  induction frames as [|f frames IH]; intros rest self w H; [reflexivity|].
  apply Forall_cons_iff in H. destruct H as [Hf H].
  cbn [app]. rewrite (loop_pass f _ self w Hf).
  unfold Camera.calls_of. cbn [flat_map]. fold (Camera.calls_of frames).
  destruct (Camera.frame_call f) as [c|].
  - cbn [app]. rewrite run_cons. cbn [fst snd filter].
    rewrite (IH rest _ _ H).
    destruct (fst (step self c)); cbn [length]; [|reflexivity].
    now rewrite Nat.iter_succ_r.
  - cbn [app]. apply IH, H.
Qed.

Lemma loop_stop f rest self w :
  Camera.stops f = true ->
  Camera.loop act self w (f :: rest) = Camera.loop act self w [f] /\
  Camera.how (Camera.loop act self w (f :: rest)) <> Camera.Pending.
Proof.
  unfold Camera.stops. cbn [Camera.loop].
  destruct (Camera.read_ok f); cbn [negb orb]; [|split; [reflexivity|discriminate]].
  intros ->.
  destruct (Camera.multi_face_landmarks f) as [|lm more];
    [split; [reflexivity|discriminate]|].
  destruct (process_landmarks lm) as [[l r]|e];
    [|split; [reflexivity|discriminate]].
  destruct (should_trigger self _ _ None) as [b d1].
  split; [reflexivity|discriminate].
Qed.

Lemma loop_cons_cases f self w :
  (exists self1 w1, forall more,
     Camera.loop act self w (f :: more) = Camera.loop act self1 w1 more) \/
  (forall more, Camera.loop act self w (f :: more) = Camera.loop act self w [f]
                /\ Camera.how (Camera.loop act self w (f :: more)) <> Camera.Pending).
Proof.
  cbn [Camera.loop].
  destruct (Camera.read_ok f); cbn [negb];
    [|right; split; [reflexivity|discriminate]].
  destruct (Camera.multi_face_landmarks f) as [|lm more0].
  - destruct (Camera.esc (Camera.key f));
      [right; split; [reflexivity|discriminate]|left; eauto].
  - destruct (process_landmarks lm) as [[l r]|e];
      [|right; split; [reflexivity|discriminate]].
    destruct (should_trigger self _ _ None) as [b d1].
    destruct (Camera.esc (Camera.key f));
      [right; split; [reflexivity|discriminate]|left; eauto].
Qed.

End CameraLoop.

(** X14.  While frames are read, no Esc is seen and every face has its
    landmarks, [run_camera] does with its detector what a sequence of
    [should_trigger] calls does: one call per frame that shows a face, in
    order, with [max(left, right)] as the score and no timestamp, so that
    the clock is read; frames without a face make no call.  [on_trigger]
    (scrolling by [scroll_amount] when none is given) has then run once per
    call that answered [True]. *)
Theorem run_camera_is_a_run {W : Type} (scroll : Z -> W -> W)
    self on_trigger w frames :
  Forall (fun f => Camera.passes f = true) frames ->
  let calls := Camera.calls_of frames in
  let fires := length (filter (fun b => b) (fst (run self calls))) in
  Camera.run_camera scroll self on_trigger true w frames =
    {| Camera.detector := snd (run self calls);
       Camera.world :=
         Nat.iter fires (Camera.trigger_action scroll self on_trigger) w;
       Camera.how := Camera.Pending |}.
Proof.
  intros H. cbn zeta. unfold Camera.run_camera. cbn [negb].
  rewrite <- (app_nil_r frames) at 1.
  rewrite (loop_passes _ frames [] self w H). reflexivity.
Qed.

(** The default detector in front of a face that rolls its eyes for three
    frames, with a frame without a face in between: one scroll by 500. *)
Lemma run_camera_is_a_run_witness :
  let frames := [Demo.shows 100 Demo.rolled; Demo.blank 100.1;
                 Demo.shows 100.2 Demo.rolled; Demo.shows 100.3 Demo.rolled]%float in
  Camera.world
    (Camera.run_camera Demo.log_scroll (Sample.fresh EyeRollConfig_default)
                       None true [] frames) = [500%Z] /\
  _last_triggered
    (Camera.detector
       (Camera.run_camera Demo.log_scroll (Sample.fresh EyeRollConfig_default)
                          None true [] frames)) = 100.3%float.
Proof.
  cbn zeta.
  rewrite (run_camera_is_a_run Demo.log_scroll
             (Sample.fresh EyeRollConfig_default) None []
             [Demo.shows 100 Demo.rolled; Demo.blank 100.1;
              Demo.shows 100.2 Demo.rolled; Demo.shows 100.3 Demo.rolled]%float
             ltac:(repeat constructor)).
  split; reflexivity.
Defined.

Lemma esc_mod k : Camera.esc k = true <-> (k mod 256 = 27)%Z.
Proof.
  unfold Camera.esc. rewrite Z.eqb_eq.
  change 255%Z with (Z.ones 8). rewrite Z.land_ones by lia. reflexivity.
Qed.

(** X15.  The loop of [run_camera] ends at the first frame whose read fails
    or at which the key code is 27 modulo 256 (Esc, or any code with the
    same low byte); [-1], no key, is not one.  What comes after that frame
    plays no part: the detector, the world and the way out are those of the
    frames up to it. *)
Theorem run_camera_ends_at_stop {W : Type} (scroll : Z -> W -> W)
    self on_trigger opened w before f after :
  Camera.stops f = true ->
  (Camera.read_ok f = false \/ (Camera.key f mod 256 = 27)%Z) /\
  Camera.run_camera scroll self on_trigger opened w (before ++ f :: after) =
    Camera.run_camera scroll self on_trigger opened w (before ++ [f]) /\
  Camera.how (Camera.run_camera scroll self on_trigger opened w
                (before ++ f :: after)) <> Camera.Pending /\
  Camera.esc (-1) = false.
Proof.
  intros Hs. split; [|split; [|split; [|reflexivity]]].
  - unfold Camera.stops in Hs. apply orb_true_iff in Hs.
    destruct Hs as [Hs|Hs]; [left; now apply negb_true_iff|right; now apply esc_mod].
  - unfold Camera.run_camera. destruct opened; cbn [negb]; [|reflexivity].
    generalize (Camera.trigger_action scroll self on_trigger). intros act.
    revert self w. induction before as [|a before IH]; intros self w.
    + apply (loop_stop act f after self w Hs).
    + cbn [app].
      destruct (loop_cons_cases act a self w) as [(self1 & w1 & E)|E].
      * rewrite !E. apply IH.
      * rewrite (proj1 (E (before ++ f :: after))), (proj1 (E (before ++ [f]))).
        reflexivity.
  - unfold Camera.run_camera. destruct opened; cbn [negb]; [|discriminate].
    generalize (Camera.trigger_action scroll self on_trigger). intros act.
    revert self w. induction before as [|a before IH]; intros self w.
    + apply (loop_stop act f after self w Hs).
    + cbn [app].
      destruct (loop_cons_cases act a self w) as [(self1 & w1 & E)|E].
      * rewrite E. apply IH.
      * apply (E (before ++ f :: after)).
Qed.

(** Esc, here with the key code 283, after one frame; a rolling face comes
    too late. *)
Lemma run_camera_ends_at_stop_witness :
  Camera.run_camera Demo.log_scroll (Sample.fresh Sample.cfg1) None true []
    ([Demo.blank 100] ++ Demo.pressed 283 100.1 :: [Demo.shows 100.2 Demo.rolled])%float
  = {| Camera.detector := Sample.fresh Sample.cfg1; Camera.world := [];
       Camera.how := Camera.EscPressed |}.
Proof.
  rewrite (proj1 (proj2 (run_camera_ends_at_stop Demo.log_scroll
             (Sample.fresh Sample.cfg1) None true []
             [Demo.blank 100%float] (Demo.pressed 283 100.1%float)
             [Demo.shows 100.2%float Demo.rolled] eq_refl))).
  reflexivity.
Defined.

(** X16.  A frame in which no face is found leaves no trace: with or
    without it, [run_camera] ends with the same detector, the same world and
    the same way out.  A streak of qualifying frames is not broken by faces
    lost in between. *)
Theorem run_camera_skips_blank_frames {W : Type} (scroll : Z -> W -> W)
    self on_trigger opened w before f after :
  Camera.read_ok f = true ->
  Camera.multi_face_landmarks f = [] ->
  Camera.esc (Camera.key f) = false ->
  Camera.run_camera scroll self on_trigger opened w (before ++ f :: after) =
    Camera.run_camera scroll self on_trigger opened w (before ++ after).
Proof.
  intros Hr Hf Hk.
  unfold Camera.run_camera. destruct opened; cbn [negb]; [|reflexivity].
  generalize (Camera.trigger_action scroll self on_trigger). intros act.
  revert self w. induction before as [|a before IH]; intros self w.
  - cbn [app Camera.loop]. now rewrite Hr, Hf, Hk.
  - cbn [app].
    destruct (loop_cons_cases act a self w) as [(self1 & w1 & E)|E].
    + rewrite !E. apply IH.
    + rewrite (proj1 (E (before ++ f :: after))), (proj1 (E (before ++ after))).
      reflexivity.
Qed.

(** A gate of two frames: the face is lost for one frame between two
    qualifying frames, and the second still fires. *)
Lemma run_camera_skips_blank_frames_witness :
  Camera.world
    (Camera.run_camera Demo.log_scroll (Sample.fresh Sample.cfg2) None true []
       ([Demo.shows 100 Demo.rolled] ++ Demo.blank 100.1
          :: [Demo.shows 100.2 Demo.rolled])%float) = [500%Z].
Proof.
  rewrite (run_camera_skips_blank_frames Demo.log_scroll
             (Sample.fresh Sample.cfg2) None true []
             [Demo.shows 100%float Demo.rolled] (Demo.blank 100.1%float)
             [Demo.shows 100.2%float Demo.rolled] eq_refl eq_refl eq_refl).
  reflexivity.
Defined.

(** ** Either eye *)

Module SFOrderFacts.
Import SFOrder.
Local Open Scope Z_scope.

Ltac order_cases :=
  repeat match goal with
         | s : bool |- _ => destruct s
         end;
  cbn;
  repeat match goal with
         | |- context [(?a ?= ?b)%Z] => destruct (Z.compare_spec a b)
         | |- context [PosDef.Pos.compare_cont Eq ?a ?b] =>
             change (PosDef.Pos.compare_cont Eq a b) with (Pos.compare a b);
             destruct (Pos.compare_spec a b)
         end;
  cbn; split; intros; try discriminate; try reflexivity; try lia.

Lemma ltb_rank x y :
  x <> S754_nan -> y <> S754_nan ->
  (SFltb x y = true <-> lt3 (rank x) (rank y)).
Proof.
  intros Hx Hy. unfold SFltb.
  destruct x as [sx|sx| |sx mx ex], y as [sy|sy| |sy my ey];
    try contradiction; order_cases.
Qed.

Lemma leb_rank x y :
  x <> S754_nan -> y <> S754_nan ->
  (SFleb x y = true <-> le3 (rank x) (rank y)).
Proof.
  intros Hx Hy. unfold SFleb.
  destruct x as [sx|sx| |sx mx ex], y as [sy|sy| |sy my ey];
    try contradiction; order_cases.
Qed.

Lemma leb_not_nan x y :
  SFleb x y = true -> x <> S754_nan /\ y <> S754_nan.
Proof.
  unfold SFleb. destruct x, y; cbn; try discriminate; split; discriminate.
Qed.

Lemma ltb_not_nan x y :
  SFltb x y = true -> x <> S754_nan /\ y <> S754_nan.
Proof.
  unfold SFltb. destruct x, y; cbn; try discriminate; split; discriminate.
Qed.

Lemma le3_trans a b c : le3 a b -> le3 b c -> le3 a c.
Proof.
  destruct a as [[a1 a2] a3], b as [[b1 b2] b3], c as [[c1 c2] c3].
  unfold le3. lia.
Qed.

Lemma le3_lt3 a b c : le3 a b -> lt3 b c -> le3 a c.
Proof.
  destruct a as [[a1 a2] a3], b as [[b1 b2] b3], c as [[c1 c2] c3].
  unfold le3, lt3. lia.
Qed.

Lemma leb_trans x y z : SFleb x y = true -> SFleb y z = true -> SFleb x z = true.
Proof.
  intros A B.
  destruct (leb_not_nan _ _ A) as [Hx Hy], (leb_not_nan _ _ B) as [_ Hz].
  apply leb_rank in A, B; auto. apply leb_rank; auto.
  eapply le3_trans; eauto.
Qed.

Lemma leb_ltb_trans x y z :
  SFleb x y = true -> SFltb y z = true -> SFleb x z = true.
Proof.
  intros A B.
  destruct (leb_not_nan _ _ A) as [Hx Hy], (ltb_not_nan _ _ B) as [_ Hz].
  apply leb_rank in A; auto. apply ltb_rank in B; auto. apply leb_rank; auto.
  eapply le3_lt3; eauto.
Qed.

End SFOrderFacts.

Lemma float_leb_trans a b c :
  (a <=? b)%float = true -> (b <=? c)%float = true -> (a <=? c)%float = true.
Proof. rewrite !leb_spec. apply SFOrderFacts.leb_trans. Qed.

Lemma float_leb_ltb_trans a b c :
  (a <=? b)%float = true -> (b <? c)%float = true -> (a <=? c)%float = true.
Proof. rewrite !leb_spec, ltb_spec. apply SFOrderFacts.leb_ltb_trans. Qed.

Lemma ltb_nan_false a b :
  is_nan a = true \/ is_nan b = true -> (a <? b)%float = false.
Proof.
  rewrite ltb_spec. unfold SFltb.
  intros [H|H]; apply FloatFacts.is_nan_spec in H; rewrite H;
    [reflexivity|now rewrite SFFacts.compare_nan_r].
Qed.

(** X17.  The score of a frame is [max(left, right)].  When both eye scores
    are numbers it is [>= roll_threshold] exactly when one of them is.  A
    NaN left score hides the right eye: the frame's score then fails the
    comparison whatever the right score is.  A NaN right score is ignored:
    the left score alone decides. *)
Theorem either_eye_qualifies l r threshold :
  (is_nan l = false -> is_nan r = false ->
   PyFloat.ge (Camera.max2 l r) threshold
     = PyFloat.ge l threshold || PyFloat.ge r threshold) /\
  (is_nan l = true -> PyFloat.ge (Camera.max2 l r) threshold = false) /\
  (is_nan r = true ->
   PyFloat.ge (Camera.max2 l r) threshold = PyFloat.ge l threshold).
Proof.
  unfold Camera.max2, PyFloat.ge. split; [|split].
  - intros Hl Hr. destruct (l <? r)%float eqn:L.
    + destruct (threshold <=? l)%float eqn:A; [|reflexivity].
      now rewrite (float_leb_ltb_trans _ _ _ A L).
    + pose proof (FloatFacts.ltb_false_leb _ _ Hl Hr L) as R.
      destruct (threshold <=? r)%float eqn:B; [|now rewrite orb_false_r].
      now rewrite (float_leb_trans _ _ _ B R).
  - intros Hl. rewrite (ltb_nan_false l r (or_introl Hl)).
    apply FloatFacts.is_nan_spec in Hl.
    rewrite leb_spec, Hl. unfold SFleb. now rewrite SFFacts.compare_nan_r.
  - intros Hr. now rewrite (ltb_nan_false l r (or_intror Hr)).
Qed.

(** ** A full streak *)

Lemma run_snoc d calls c :
  run d (calls ++ [c]) =
    (fst (run d calls) ++ [fst (step (snd (run d calls)) c)],
     snd (step (snd (run d calls)) c)).
Proof.
  revert d. induction calls as [|a calls IH]; intros d.
  - cbn. now destruct (step d c).
  - cbn [app]. rewrite !run_cons, IH. reflexivity.
Qed.

Lemma quiet_or_fired (outs : list bool) :
  Forall (fun b => b = false) outs \/ In true outs.
Proof.
  induction outs as [|[|] outs [IH|IH]]; cbn; auto.
Qed.

Lemma accumulated_all cfg last calls :
  Forall (fun c => past_debounce cfg last c = true) calls ->
  accumulated cfg last calls = map score calls.
Proof.
  intros H. unfold accumulated. f_equal.
  induction H as [|c calls Hc _ IH]; [reflexivity|].
  cbn [filter]. now rewrite Hc, IH.
Qed.

(** X18.  A sustained gesture fires.  In a reachable state of a gate that
    requires at least one frame, [frames_required] calls in a row that are
    past the debounce check and bring scores [>= roll_threshold] include a
    call that answers [True], whatever the deque held before. *)
Theorem full_streak_fires cfg d calls :
  reachable cfg d ->
  (1 <= frames_required (config d))%Z ->
  Z.of_nat (length calls) = frames_required (config d) ->
  Forall (fun c => past_debounce (config d) (_last_triggered d) c = true /\
                   PyFloat.ge (score c) (roll_threshold (config d)) = true)
         calls ->
  In true (fst (run d calls)).
Proof.
  intros Hr H1 Hn Hall.
  destruct (exists_last (l := calls)) as (quiet & c & ->);
    [intros ->; cbn in Hn; lia|].
  rewrite run_snoc. cbn [fst]. apply in_or_app.
  destruct (quiet_or_fired (fst (run d quiet))) as [Hq|Hf]; [right|now left].
  left.
  pose proof (reachable_inv _ _ Hr) as I0.
  destruct (run_quiet d quiet I0 Hq) as (Ec & El & Em & Ei).
  pose proof (run_inv d quiet I0) as (_ & _ & Hl1).
  destruct I0 as (H0 & Hm0 & _).
  assert (Hp : Forall (fun c => past_debounce (config d) (_last_triggered d) c = true)
                      (quiet ++ [c])).
  { eapply Forall_impl; [|exact Hall]. cbn. tauto. }
  assert (Hs : forallb (fun s => PyFloat.ge s (roll_threshold (config d)))
                       (map score (quiet ++ [c])) = true).
  { apply forallb_forall. intros s Hs. apply in_map_iff in Hs.
    destruct Hs as (a & <- & Ha).
    rewrite Forall_forall in Hall. apply (Hall a Ha). }
  assert (Hc : past_debounce (config d) (_last_triggered d) c = true).
  { rewrite Forall_forall in Hp. apply Hp, in_or_app. right. now left. }
  assert (W : Deque.items (Deque.append (_recent_scores (snd (run d quiet))) (score c))
              = map score (quiet ++ [c])).
  { rewrite DequeFacts.items_append by exact Hl1.
    rewrite Em, Ei, Hm0, lastn_snoc, <- app_assoc.
    rewrite <- (accumulated_snoc _ _ _ _ Hc), (accumulated_all _ _ _ Hp).
    rewrite lastn_app_long by (rewrite length_map; lia).
    apply lastn_all. rewrite length_map. lia. }
  rewrite step_fires, Ec, El, Hc. unfold Deque.len. rewrite W, Hs, length_map.
  destruct (Z.ltb_spec (Z.of_nat (length (quiet ++ [c]))) (frames_required (config d)));
    [lia|reflexivity].
Qed.

(** The default detector with a low score in its deque, then three scores
    above the threshold. *)
Lemma full_streak_fires_witness :
  In true
     (fst (run (snd (step (Sample.fresh EyeRollConfig_default) (Demo.at_time 5 0.1)))
               [Demo.at_time 6 0.7; Demo.at_time 7 0.9; Demo.at_time 8 0.8])).
Proof.
  apply (full_streak_fires None
           (snd (step (Sample.fresh EyeRollConfig_default) (Demo.at_time 5 0.1)))
           [Demo.at_time 6 0.7; Demo.at_time 7 0.9; Demo.at_time 8 0.8]
           (reach_step None _ (Demo.at_time 5 0.1) (reach_init None _ eq_refl)));
    try reflexivity.
  - vm_compute. intros H. discriminate H.
  - repeat constructor.
Defined.

(** ** A timestamp that is not a number *)

Lemma sub_nan_r a : (a - nan)%float = nan.
Proof.
  apply Prim2SF_inj. rewrite sub_spec. change (Prim2SF nan) with S754_nan.
  destruct (Prim2SF a) as [s|s| |s m e]; reflexivity.
Qed.

Lemma is_nan_eq a : is_nan a = true -> a = nan.
Proof.
  intros H. apply FloatFacts.is_nan_spec in H. apply Prim2SF_inj. now rewrite H.
Qed.

(** X19.  A fire at a NaN timestamp switches the debounce off.  The call
    records NaN as the time of the last trigger; every difference with it is
    NaN and never below the debounce, so each later call is past the
    debounce check until the gate fires again. *)
Theorem nan_fire_disables_debounce d c d1 :
  step d c = (true, d1) ->
  is_nan (effective c) = true ->
  forall quiet later,
    Forall (fun b => b = false) (fst (run d1 quiet)) ->
    let d2 := snd (run d1 quiet) in
    past_debounce (config d2) (_last_triggered d2) later = true.
Proof.
  intros E Hn quiet later Hq. cbn zeta.
  destruct (run_quiet_last _ _ Hq) as [_ El].
  apply step_true in E. destruct E as (_ & _ & _ & ->). cbn in El.
  unfold past_debounce. rewrite El. unfold effective in Hn.
  rewrite (is_nan_eq _ Hn), sub_nan_r.
  now rewrite (ltb_nan_false nan _ (or_introl eq_refl)).
Qed.

(** A gate of one frame that fires at a NaN timestamp fires again a
    millisecond later, well inside its debounce of one second. *)
Lemma nan_fire_disables_debounce_witness :
  let d1 := snd (step (Sample.fresh Sample.cfg1) (Demo.at_time nan 0.9)) in
  past_debounce (config d1) (_last_triggered d1) (Demo.at_time 5.001 0.9) = true.
Proof.
  exact (nan_fire_disables_debounce (Sample.fresh Sample.cfg1)
           (Demo.at_time nan 0.9)
           (snd (step (Sample.fresh Sample.cfg1) (Demo.at_time nan 0.9)))
           eq_refl eq_refl [] (Demo.at_time 5.001 0.9) (Forall_nil _)).
Defined.

(** ** Ways out of the camera loop *)


